(** * HasText: the room editor's reconciliation guard and the dashboard's
    room codes.

    A shallow embedding of [Room.tsx] (the realtime UPDATE callback,
    [isNewer], [loadRoom], [handleSave]) and of [Dashboard.tsx]
    ([generateRoomCode], [handleJoinRoom]), followed by the rest of the two
    components, the helpers of [lib/supabase.ts], the submit handler of
    [Login.tsx] and the realtime callback of the earlier editor.

    Conventions of the embedding.
    - A row of the [rooms] table is a JavaScript object: a finite map from
      column names to values, so that the object spread
      [{ ...prev, ...next }] is a left-biased union.
    - A column value of type [string | null] is a [jsval]; a property read
      [next.updated_at] is a map lookup, [None] standing for [undefined].
    - React state and refs are the fields of [State]; the handlers are
      computations in a small state/exception/trace monad [M].  A state
      updater passed to [setRoomData] is run on the spot.
    - What the component receives from outside is an input of the handler:
      the reply of the store to an awaited request, the clock reading of
      [new Date().toISOString()], the string [Math.random().toString(36)].
      An awaited request and its continuation are one step, taken when
      the reply arrives: no other handler runs in between.
    - A string is a string of bytes: text in UTF-8, so that an ASCII
      character is one byte below 128 and any other character a run of
      bytes from 128 up.  [trim] strips the white space and line
      terminators of ECMAScript, ASCII or not.  [toUpperCase] is the
      method on ASCII text, which is what [generateRoomCode] applies it to;
      [toUpperCaseText] is the method on any text, with the upper-case
      forms of non-ASCII text, a table of Unicode, as a parameter. *)

From Stdlib Require Import ZArith String Ascii List Bool Lia Permutation.
From stdpp Require Import base option list gmap strings fin_maps.

Local Open Scope string_scope.
Local Open Scope Z_scope.

(** ** JavaScript values and strings *)

(** A value of TypeScript type [string | null]. *)
Inductive jsval : Type :=
  | JNull
  | JStr (s : string).

#[global] Instance jsval_eq_dec : EqDecision jsval.
Proof. solve_decision. Defined.

(** A value of type [string | null | undefined]: [None] is [undefined]. *)
Abbreviation jsopt := (option jsval).

(** A row object, e.g. [payload.new]. *)
Abbreviation Row := (gmap string jsval).

(** ToBoolean on a string: only the empty string is falsy. *)
Definition truthy_str (s : string) : bool :=
  negb (String.eqb s "").

(** ToBoolean on [string | null | undefined]. *)
Definition truthy (v : jsopt) : bool :=
  match v with
  | Some (JStr s) => truthy_str s
  | Some JNull => false
  | None => false
  end.

(** [v ?? null]. *)
Definition or_null (v : jsopt) : jsval :=
  match v with
  | Some (JStr s) => JStr s
  | Some JNull => JNull
  | None => JNull
  end.

(** [v ?? ""]. *)
Definition or_empty (v : jsopt) : string :=
  match v with
  | Some (JStr s) => s
  | Some JNull => ""
  | None => ""
  end.

(** ToString, as applied by [Date.parse] to its argument. *)
Definition ToString (v : jsopt) : string :=
  match v with
  | Some (JStr s) => s
  | Some JNull => "null"
  | None => "undefined"
  end.

(** [a === b]. *)
Definition strict_eq (a b : jsopt) : bool := bool_decide (a = b).

Fixpoint string_map (f : ascii -> ascii) (s : string) : string :=
  match s with
  | EmptyString => EmptyString
  | String c s' => String (f c) (string_map f s')
  end.

Fixpoint string_forallb (p : ascii -> bool) (s : string) : bool :=
  match s with
  | EmptyString => true
  | String c s' => p c && string_forallb p s'
  end.

Definition char_code (c : ascii) : Z := Z.of_N (N_of_ascii c).

Definition is_lower (c : ascii) : bool :=
  (97 <=? char_code c) && (char_code c <=? 122).

Definition is_upper (c : ascii) : bool :=
  (65 <=? char_code c) && (char_code c <=? 90).

Definition is_digit (c : ascii) : bool :=
  (48 <=? char_code c) && (char_code c <=? 57).

Definition upper_char (c : ascii) : ascii :=
  if is_lower c then ascii_of_N (Z.to_N (char_code c - 32)) else c.

(** [s.toUpperCase()] on ASCII text. *)
Definition toUpperCase (s : string) : string := string_map upper_char s.

Definition is_ascii_char (c : ascii) : bool := char_code c <? 128.

Definition is_ascii (s : string) : bool := string_forallb is_ascii_char s.

Fixpoint string_rev_onto (s acc : string) : string :=
  match s with
  | EmptyString => acc
  | String c s' => string_rev_onto s' (String c acc)
  end.

Definition string_rev (s : string) : string := string_rev_onto s "".

Section Text.

(** The upper-case form of a run of non-ASCII characters, as the Unicode
    character database gives it (it may contain ASCII characters and
    differ in length from the run, as for the sharp s). *)
Variable upper_wide : string -> string.

Definition flush_wide (run : string) : string :=
  if String.eqb run "" then "" else upper_wide (string_rev run).

(** Upper-casing maps character by character: an ASCII character by
    [upper_char], a maximal run of other characters by [upper_wide];
    [run] is the run read so far, last byte first. *)
Fixpoint upper_text (s run : string) : string :=
  match s with
  | EmptyString => flush_wide run
  | String c s' =>
      if is_ascii_char c
      then flush_wide run ++ String (upper_char c) (upper_text s' "")
      else upper_text s' (String c run)
  end.

(** [s.toUpperCase()] on any text. *)
Definition toUpperCaseText (s : string) : string := upper_text s "".

End Text.

(** The white space and line terminators of ECMAScript that are ASCII:
    TAB, LF, VT, FF, CR and the space. *)
Definition is_space (c : ascii) : bool :=
  let n := char_code c in
  (n =? 9) || (n =? 10) || (n =? 11) || (n =? 12) || (n =? 13) || (n =? 32).

(** Reading white space byte by byte: [W0] between characters, the other
    states inside the UTF-8 form of one of the non-ASCII white space
    characters and line terminators, which are U+00A0 (C2 A0), U+1680
    (E1 9A 80), U+2000 to U+200A (E2 80 80 to E2 80 8A), U+2028 and U+2029
    (E2 80 A8, E2 80 A9), U+202F (E2 80 AF), U+205F (E2 81 9F), U+3000
    (E3 80 80) and U+FEFF (EF BB BF). *)
Inductive ws_state : Type :=
  | W0 | W_C2 | W_E1 | W_E1_9A | W_E2 | W_E2_80 | W_E2_81 | W_E3 | W_E3_80
  | W_EF | W_EF_BB.

Definition ws_step (st : ws_state) (c : ascii) : option ws_state :=
  let n := char_code c in
  match st with
  | W0 =>
      if is_space c then Some W0
      else if n =? 194 then Some W_C2
      else if n =? 225 then Some W_E1
      else if n =? 226 then Some W_E2
      else if n =? 227 then Some W_E3
      else if n =? 239 then Some W_EF
      else None
  | W_C2 => if n =? 160 then Some W0 else None
  | W_E1 => if n =? 154 then Some W_E1_9A else None
  | W_E1_9A => if n =? 128 then Some W0 else None
  | W_E2 =>
      if n =? 128 then Some W_E2_80
      else if n =? 129 then Some W_E2_81
      else None
  | W_E2_80 =>
      if ((128 <=? n) && (n <=? 138)) || (n =? 168) || (n =? 169) || (n =? 175)
      then Some W0 else None
  | W_E2_81 => if n =? 159 then Some W0 else None
  | W_E3 => if n =? 128 then Some W_E3_80 else None
  | W_E3_80 => if n =? 128 then Some W0 else None
  | W_EF => if n =? 187 then Some W_EF_BB else None
  | W_EF_BB => if n =? 191 then Some W0 else None
  end.

Fixpoint blank_from (st : ws_state) (s : string) : bool :=
  match s with
  | EmptyString => match st with W0 => true | _ => false end
  | String c r =>
      match ws_step st c with
      | Some st' => blank_from st' r
      | None => false
      end
  end.

(** The text is empty or white space only. *)
Definition blank (s : string) : bool := blank_from W0 s.

(** Skipping leading white space: [fallback] is the text from the last
    character boundary on, returned when what follows is not white
    space. *)
Fixpoint skip_white (st : ws_state) (s fallback : string) : string :=
  match s with
  | EmptyString => match st with W0 => "" | _ => fallback end
  | String c r =>
      match ws_step st c with
      | Some W0 => skip_white W0 r r
      | Some st' => skip_white st' r fallback
      | None => fallback
      end
  end.

(** [s.trimStart()]. *)
Definition trim_start (s : string) : string := skip_white W0 s s.

(** [s.trimEnd()]: the text up to its longest blank ending. *)
Fixpoint trim_end (s : string) : string :=
  match s with
  | EmptyString => EmptyString
  | String c r => if blank s then EmptyString else String c (trim_end r)
  end.

(** [s.trim()]. *)
Definition trim (s : string) : string := trim_end (trim_start s).

(** [s.substring(start, end)] for natural indices: the arguments are
    swapped when [start > end] and clamped to the length. *)
Definition js_substring (i j : nat) (s : string) : string :=
  String.substring (Nat.min i j) (Nat.max i j - Nat.min i j) s.

(** ** [Date.parse]

    [Date.parse] is a JavaScript built-in.  The handlers take it as a
    parameter [Date_parse : string -> option Z]: the time value in
    milliseconds, [None] for [NaN].  [Date_parse_iso] is an instance for
    the UTC forms [YYYY-MM-DDTHH:mm:ssZ] and [YYYY-MM-DDTHH:mm:ss.sssZ] of
    the ECMAScript date-time string format (the second is what
    [toISOString] produces); it answers [NaN] on everything else. *)

Definition digit_val (c : ascii) : option Z :=
  if is_digit c then Some (char_code c - 48) else None.

Fixpoint take_num (k : nat) (acc : Z) (l : list ascii) : option (Z * list ascii) :=
  match k with
  | O => Some (acc, l)
  | S k' =>
      match l with
      | c :: l' => d ← digit_val c; take_num k' (10 * acc + d) l'
      | [] => None
      end
  end.

Definition expect (c : ascii) (l : list ascii) : option (list ascii) :=
  match l with
  | c' :: l' => if bool_decide (c = c') then Some l' else None
  | [] => None
  end.

Definition is_leap (y : Z) : bool :=
  ((y mod 4 =? 0) && negb (y mod 100 =? 0)) || (y mod 400 =? 0).

Definition days_in_month (y m : Z) : Z :=
  if m =? 2 then (if is_leap y then 29 else 28)
  else if (m =? 4) || (m =? 6) || (m =? 9) || (m =? 11) then 30
  else 31.

(** Days from 1970-01-01 to the civil date [y]-[m]-[d]. *)
Definition days_from_civil (y m d : Z) : Z :=
  let y' := if m <=? 2 then y - 1 else y in
  let era := y' / 400 in
  let yoe := y' - era * 400 in
  let mp := if m <=? 2 then m + 9 else m - 3 in
  let doy := (153 * mp + 2) / 5 + d - 1 in
  let doe := yoe * 365 + yoe / 4 - yoe / 100 + doy in
  era * 146097 + doe - 719468.

Definition parse_millis (l : list ascii) : option Z :=
  match l with
  | ["Z"%char] => Some 0
  | _ => l1 ← expect "." l;
         '(ms, l2) ← take_num 3 0 l1;
         match l2 with
         | ["Z"%char] => Some ms
         | _ => None
         end
  end.

Definition Date_parse_iso (s : string) : option Z :=
  '(y, l) ← take_num 4 0 (list_ascii_of_string s);
  l ← expect "-" l;
  '(mo, l) ← take_num 2 0 l;
  l ← expect "-" l;
  '(d, l) ← take_num 2 0 l;
  l ← expect "T" l;
  '(h, l) ← take_num 2 0 l;
  l ← expect ":" l;
  '(mi, l) ← take_num 2 0 l;
  l ← expect ":" l;
  '(sec, l) ← take_num 2 0 l;
  ms ← parse_millis l;
  if (1 <=? mo) && (mo <=? 12) && (1 <=? d) && (d <=? days_in_month y mo)
     && (h <=? 23) && (mi <=? 59) && (sec <=? 59)
  then Some ((((days_from_civil y mo d * 24 + h) * 60 + mi) * 60 + sec) * 1000 + ms)
  else None.

(** [Number.isNaN(x)] on a time value. *)
Definition isNaN (x : option Z) : bool :=
  match x with
  | None => true
  | Some _ => false
  end.

(** [x > y] on time values: a comparison with [NaN] is false. *)
Definition num_gt (x y : option Z) : bool :=
  match x, y with
  | Some tx, Some ty => tx >? ty
  | _, _ => false
  end.

(** ** The editor's state, effects and the handler monad *)

(** [user] of [useAuth]: [user.email] may be [undefined]. *)
Record User : Type := mkUser {
  user_id : string;
  user_email : option string
}.

(** The error object of a store reply; [error.code] may be [undefined]. *)
Record StoreError : Type := mkStoreError {
  err_code : option string;
  err_message : string
}.

(** The destructured reply [{ data, error }] of a store request. *)
Record StoreReply : Type := mkReply {
  data : option Row;
  error : option StoreError
}.

(** The outcome of an awaited promise. *)
Inductive Awaited (A : Type) : Type :=
  | Resolved (a : A)
  | Rejected (e : StoreError).
Arguments Resolved {A} a.
Arguments Rejected {A} e.

(** The [useState] cells and [useRef] cells of [Room]. *)
Record State : Type := mkState {
  roomData : option Row;
  content : string;
  isSaving : bool;
  loading : bool;
  lastAppliedAtRef : jsval;
  myEmailRef : jsval
}.

(** What a handler does to the outside world. *)
Inductive Effect : Type :=
  | Toast (title description : string) (destructive : bool)
  | Navigate (path : string)
  | ConsoleError (msg : string)
  | StoreSelect (code : string)
  | StoreUpdate (code : string) (fields : Row).

Inductive Outcome (A : Type) : Type :=
  | Done (a : A)
  | Thrown (e : StoreError).
Arguments Done {A} a.
Arguments Thrown {A} e.

(** A handler: it reads and writes the state, may throw, and leaves a
    trace of effects. *)
Definition M (A : Type) : Type := State -> Outcome A * State * list Effect.

#[global] Instance M_ret : MRet M :=
  fun A a st => (Done a, st, []).

#[global] Instance M_bind : MBind M :=
  fun A B k m st =>
    match m st with
    | (Done a, st1, tr1) =>
        match k a st1 with
        | (r, st2, tr2) => (r, st2, (tr1 ++ tr2)%list)
        end
    | (Thrown e, st1, tr1) => (Thrown e, st1, tr1)
    end.

Definition throw {A : Type} (e : StoreError) : M A :=
  fun st => (Thrown e, st, []).

Definition emit (e : Effect) : M unit :=
  fun st => (Done tt, st, [e]).

Definition gets {A : Type} (f : State -> A) : M A :=
  fun st => (Done (f st), st, []).

Definition modify (f : State -> State) : M unit :=
  fun st => (Done tt, f st, []).

Definition skip : M unit := mret tt.

(** [try { body } catch (e) { handler e } finally { fin }]. *)
Definition try_catch_finally {A : Type}
    (body : M A) (handler : StoreError -> M A) (fin : M unit) : M A :=
  fun st =>
    match body st with
    | (r1, st1, tr1) =>
        match (match r1 with
               | Done a => (Done a, st1, [])
               | Thrown e => handler e st1
               end) with
        | (r2, st2, tr2) =>
            match fin st2 with
            | (Done _, st3, tr3) => (r2, st3, (tr1 ++ tr2 ++ tr3)%list)
            | (Thrown e, st3, tr3) => (Thrown e, st3, (tr1 ++ tr2 ++ tr3)%list)
            end
        end
    end.

(** [await p]. *)
Definition await {A : Type} (p : Awaited A) : M A :=
  match p with
  | Resolved a => mret a
  | Rejected e => throw e
  end.

Definition setRoomData (r : option Row) : M unit :=
  modify (fun st => mkState r (content st) (isSaving st) (loading st)
                            (lastAppliedAtRef st) (myEmailRef st)).

(** [setRoomData((prev) => f prev)]. *)
Definition updateRoomData (f : option Row -> option Row) : M unit :=
  modify (fun st => mkState (f (roomData st)) (content st) (isSaving st)
                            (loading st) (lastAppliedAtRef st) (myEmailRef st)).

Definition setContent (c : string) : M unit :=
  modify (fun st => mkState (roomData st) c (isSaving st) (loading st)
                            (lastAppliedAtRef st) (myEmailRef st)).

Definition setIsSaving (b : bool) : M unit :=
  modify (fun st => mkState (roomData st) (content st) b (loading st)
                            (lastAppliedAtRef st) (myEmailRef st)).

Definition setLoading (b : bool) : M unit :=
  modify (fun st => mkState (roomData st) (content st) (isSaving st) b
                            (lastAppliedAtRef st) (myEmailRef st)).

Definition setLastAppliedAt (v : jsval) : M unit :=
  modify (fun st => mkState (roomData st) (content st) (isSaving st)
                            (loading st) v (myEmailRef st)).

Definition setMyEmail (v : jsval) : M unit :=
  modify (fun st => mkState (roomData st) (content st) (isSaving st)
                            (loading st) (lastAppliedAtRef st) v).

Definition toast (title description : string) (destructive : bool) : M unit :=
  emit (Toast title description destructive).

Definition navigate (path : string) : M unit := emit (Navigate path).

(** The state and the trace a handler leaves. *)
Definition exec {A : Type} (m : M A) (st : State) : State := (m st).1.2.
Definition trace {A : Type} (m : M A) (st : State) : list Effect := (m st).2.
Definition outcome {A : Type} (m : M A) (st : State) : Outcome A := (m st).1.1.

(** The component as first rendered. *)
Definition initial_state : State :=
  mkState None "" false true JNull JNull.

(** [user?.email ?? null]. *)
Definition email_of (user : option User) : jsval :=
  match user with
  | Some u => match user_email u with Some e => JStr e | None => JNull end
  | None => JNull
  end.

(** The effect [myEmailRef.current = user?.email ?? null]. *)
Definition syncMyEmail (user : option User) : M unit :=
  setMyEmail (email_of user).

(** ** Room.tsx *)

Section Room.

Variable Date_parse : string -> option Z.

(** [isNewer(a, b)]: is [a] strictly newer than [b]. *)
Definition isNewer (a b : jsopt) : bool :=
  if negb (truthy a) && negb (truthy b) then false
  else if truthy a && negb (truthy b) then true
  else if negb (truthy a) && truthy b then false
  else
    let da := Date_parse (ToString a) in
    let db := Date_parse (ToString b) in
    if isNaN da || isNaN db then negb (negb (truthy a)) && negb (truthy b)
    else num_gt da db.

(** [myEmailRef.current && next.editor_email &&
     next.editor_email === myEmailRef.current], as a condition. *)
Definition isSelfUpdate (myEmail : jsval) (next : Row) : bool :=
  truthy (Some myEmail)
  && truthy (next !! "editor_email")
  && strict_eq (next !! "editor_email") (Some myEmail).

(** [{ ...(prev ?? {}), ...next }]. *)
Definition merge_row (prev : option Row) (next : Row) : Row :=
  next ∪ default ∅ prev.

(** The realtime UPDATE callback; [payload] is [payload?.new], [None] when
    it is missing. *)
Definition onRemoteUpdate (payload : option Row) : M unit :=
  match payload with
  | None => skip
  | Some next =>
      my ← gets myEmailRef;
      if isSelfUpdate my next then
        last ← gets lastAppliedAtRef;
        (if isNewer (next !! "updated_at") (Some last)
         then setLastAppliedAt (or_null (next !! "updated_at"))
         else skip);;
        updateRoomData (fun prev => Some (merge_row prev next))
      else
        last ← gets lastAppliedAtRef;
        if negb (isNewer (next !! "updated_at") (Some last)) then skip
        else
          setLastAppliedAt (or_null (next !! "updated_at"));;
          setRoomData (Some next);;
          setContent (or_empty (next !! "content"))
  end.

Definition is_not_found_code (e : StoreError) : bool :=
  bool_decide (err_code e = Some "PGRST116").

(** [loadRoom(code, isMounted)]; [reply] is what the awaited
    [select("*").eq("code", code).single()] gives. *)
Definition loadRoom (user : option User) (code : string) (isMounted : bool)
    (reply : Awaited StoreReply) : M unit :=
  match user with
  | None => skip
  | Some _ =>
      try_catch_finally
        (emit (StoreSelect code);;
         r ← await reply;
         match error r with
         | Some e => if negb (is_not_found_code e) then throw e else skip
         | None => skip
         end;;
         match data r with
         | Some room =>
             setLastAppliedAt (or_null (room !! "updated_at"));;
             if isMounted then
               setRoomData (Some room);;
               setContent (or_empty (room !! "content"))
             else skip
         | None =>
             toast "Room not found"
                   "This room doesn't exist or you don't have access to it."
                   true;;
             navigate "/dashboard"
         end)
        (fun e =>
           emit (ConsoleError "Error loading room:");;
           toast "Error" "Failed to load room data." true;;
           navigate "/dashboard")
        (if isMounted then setLoading false else skip)
  end.

(** The object written by [handleSave]; a property whose value is
    [undefined] is not sent. *)
Definition save_fields (c : string) (u : User) (nowIso : string) : Row :=
  let base : Row := <["content" := JStr c]> (<["updated_at" := JStr nowIso]> ∅) in
  match user_email u with
  | Some e => <["editor_email" := JStr e]> base
  | None => base
  end.

(** [handleSave()]; [nowIso] is [new Date().toISOString()] and [reply] is
    what the awaited [update(...).eq("code", roomCode)] gives. *)
Definition handleSave (user : option User) (roomCode : option string)
    (nowIso : string) (reply : Awaited StoreReply) : M unit :=
  match user, roomCode with
  | Some u, Some code =>
      if negb (truthy_str code) then skip
      else
        setIsSaving true;;
        try_catch_finally
          (c ← gets content;
           emit (StoreUpdate code (save_fields c u nowIso));;
           r ← await reply;
           match error r with
           | Some e => throw e
           | None => skip
           end;;
           setLastAppliedAt (JStr nowIso);;
           toast "Saved successfully" "Your text has been saved to the room" false)
          (fun e =>
             emit (ConsoleError "Error saving room:");;
             toast "Save failed" "There was an error saving your text" true)
          (setIsSaving false)
  | _, _ => skip
  end.

End Room.

(** The mount effect of [Room], as far as loading goes: the guard on
    [roomCode] and [user], then [loadRoom(roomCode, isMounted)] with
    [isMounted] just set to [true]. *)
Definition roomEffect (user : option User) (roomCode : option string)
    (reply : Awaited StoreReply) : M unit :=
  match roomCode, user with
  | Some code, Some _ =>
      if negb (truthy_str code) then skip
      else loadRoom user code true reply
  | _, _ => skip
  end.

(** A save fails when the awaited request rejects or its reply carries an
    error. *)
Definition save_failed (reply : Awaited StoreReply) : Prop :=
  match reply with
  | Rejected _ => True
  | Resolved r => error r <> None
  end.

(** The reply to [single()] when no row matches the code: no data, and no
    error other than PGRST116 ("no rows"). *)
Definition not_found_reply (r : StoreReply) : Prop :=
  data r = None
  /\ match error r with
     | Some e => err_code e = Some "PGRST116"
     | None => True
     end.

(** The operations of the editor, with their inputs. *)
Inductive Op : Type :=
  | OpLoad (user : option User) (code : string) (isMounted : bool)
           (reply : Awaited StoreReply)
  | OpSave (user : option User) (roomCode : option string) (nowIso : string)
           (reply : Awaited StoreReply)
  | OpRemote (payload : option Row).

Section Run.

Variable Date_parse : string -> option Z.

Definition step (st : State) (op : Op) : State :=
  match op with
  | OpLoad user code isMounted reply =>
      exec (loadRoom user code isMounted reply) st
  | OpSave user roomCode nowIso reply =>
      exec (handleSave user roomCode nowIso reply) st
  | OpRemote payload =>
      exec (onRemoteUpdate Date_parse payload) st
  end.

Definition run (ops : list Op) (st : State) : State := foldl step st ops.

(** The change feed delivers the rows [es], first to last. *)
Definition deliver (es : list Row) (st : State) : State :=
  run (OpRemote <$> (Some <$> es)) st.

(** The time value of an event's [updated_at], when it is a non-empty
    string that parses. *)
Definition event_time (e : Row) : option Z :=
  match e !! "updated_at" with
  | Some (JStr s) => if truthy_str s then Date_parse s else None
  | _ => None
  end.

(** [new] is the old watermark or strictly newer than it. *)
Definition no_regress (old new : jsval) : Prop :=
  new = old \/ isNewer Date_parse (Some new) (Some old) = true.

End Run.

(** ** Dashboard.tsx *)

(** [generateRoomCode()]; [random36] is [Math.random().toString(36)]. *)
Definition generateRoomCode (random36 : string) : string :=
  toUpperCase (js_substring 2 8 random36).

(** [handleJoinRoom()] with [joinCode] the text of the input field;
    [upper_wide] is the table [toUpperCase] uses on non-ASCII text. *)
Definition handleJoinRoom (upper_wide : string -> string) (joinCode : string)
    : list Effect :=
  if truthy_str (trim joinCode)
  then [Navigate ("/room/" ++ toUpperCaseText upper_wide joinCode)]
  else [].

Definition is_base36_lower (c : ascii) : bool := is_digit c || is_lower c.
Definition is_base36_upper (c : ascii) : bool := is_digit c || is_upper c.

(** The shape of [x.toString(36)] for a number [0 <= x < 1]: ["0"], or
    ["0."] followed by digits of radix 36. *)
Definition radix36_fraction (r : string) : bool :=
  match r with
  | String "0" EmptyString => true
  | String "0" (String "." d) => string_forallb is_base36_lower d
  | _ => false
  end.

(** Two characters that are equal or the two cases of one letter. *)
Definition same_letter (c c' : ascii) : Prop :=
  c = c'
  \/ (is_lower c = true /\ char_code c' = char_code c - 32)
  \/ (is_lower c' = true /\ char_code c = char_code c' - 32).

(** Two strings that differ only in the case of their letters. *)
Fixpoint eq_ignore_case (s s' : string) : Prop :=
  match s, s' with
  | EmptyString, EmptyString => True
  | String c t, String c' t' => same_letter c c' /\ eq_ignore_case t t'
  | _, _ => False
  end.

(** ** Handlers outside the reconciliation guard

    The handlers below have other state than the editor's and other
    effects; they run in the same kind of monad, over any state [S] and
    effect type [E]. *)

(** What the other handlers do to the outside world: the console, toasts
    and navigation as before, requests to the store and to the identity
    provider, the clipboard, a file download, and the call of the
    [onUpdate] callback of [subscribeToRoomUpdates]. *)
Inductive AppEffect : Type :=
  | Ui (e : Effect)
  | StoreInsert (fields : Row)
  | StoreSelectOwned (userId : string)
  | StoreSelectUserEmail (userId : string)
  | AuthSignIn (email password : string)
  | AuthSignUp (email password : string)
  | ClipboardWrite (text : string)
  | DownloadFile (name body : string)
  | OnUpdate (content : jsopt) (editorEmail : string).

Definition H (S E A : Type) : Type := S -> Outcome A * S * list E.

#[global] Instance H_ret (S E : Type) : MRet (H S E) :=
  fun A a st => (Done a, st, []).

#[global] Instance H_bind (S E : Type) : MBind (H S E) :=
  fun A B k m st =>
    match m st with
    | (Done a, st1, tr1) =>
        match k a st1 with
        | (r, st2, tr2) => (r, st2, (tr1 ++ tr2)%list)
        end
    | (Thrown e, st1, tr1) => (Thrown e, st1, tr1)
    end.

Section Handler.

Context {S E : Type}.

Definition h_throw {A : Type} (e : StoreError) : H S E A :=
  fun st => (Thrown e, st, []).

Definition h_emit (e : E) : H S E unit :=
  fun st => (Done tt, st, [e]).

Definition h_gets {A : Type} (f : S -> A) : H S E A :=
  fun st => (Done (f st), st, []).

Definition h_modify (f : S -> S) : H S E unit :=
  fun st => (Done tt, f st, []).

Definition h_skip : H S E unit := fun st => (Done tt, st, []).

(** [try { body } catch (e) { handler e }]. *)
Definition h_try_catch {A : Type} (body : H S E A)
    (handler : StoreError -> H S E A) : H S E A :=
  fun st =>
    match body st with
    | (Done a, st1, tr1) => (Done a, st1, tr1)
    | (Thrown e, st1, tr1) =>
        match handler e st1 with
        | (r2, st2, tr2) => (r2, st2, (tr1 ++ tr2)%list)
        end
    end.

(** [try { body } catch (e) { handler e } finally { fin }]. *)
Definition h_try_catch_finally {A : Type} (body : H S E A)
    (handler : StoreError -> H S E A) (fin : H S E unit) : H S E A :=
  fun st =>
    match h_try_catch body handler st with
    | (r2, st2, tr2) =>
        match fin st2 with
        | (Done _, st3, tr3) => (r2, st3, (tr2 ++ tr3)%list)
        | (Thrown e, st3, tr3) => (Thrown e, st3, (tr2 ++ tr3)%list)
        end
    end.

Definition h_await {A : Type} (p : Awaited A) : H S E A :=
  match p with
  | Resolved a => fun st => (Done a, st, [])
  | Rejected e => h_throw e
  end.

Definition h_exec {A : Type} (m : H S E A) (st : S) : S := (m st).1.2.
Definition h_trace {A : Type} (m : H S E A) (st : S) : list E := (m st).2.
Definition h_outcome {A : Type} (m : H S E A) (st : S) : Outcome A := (m st).1.1.

End Handler.

Definition ui_toast {S : Type} (title description : string) (destructive : bool)
    : H S AppEffect unit :=
  h_emit (Ui (Toast title description destructive)).

Definition ui_navigate {S : Type} (path : string) : H S AppEffect unit :=
  h_emit (Ui (Navigate path)).

Definition ui_console_error {S : Type} (msg : string) : H S AppEffect unit :=
  h_emit (Ui (ConsoleError msg)).

(** [s || fallback] on strings. *)
Definition str_or (s fallback : string) : string :=
  if truthy_str s then s else fallback.

(** [v || fallback] where [v] is [string | null | undefined]. *)
Definition val_or (v : jsopt) (fallback : string) : string :=
  if truthy v then or_empty v else fallback.

(** ** Room.tsx, the rest of the component *)

(** The channel name, [roomCode ? `room-changes-${roomCode}` : "room-changes"]. *)
Definition channelName (roomCode : option string) : string :=
  match roomCode with
  | Some code => if truthy_str code then "room-changes-" ++ code else "room-changes"
  | None => "room-changes"
  end.

(** The render guard [loading || !roomData]: the loading screen is shown
    instead of the editor. *)
Definition showsLoading (st : State) : bool :=
  loading st || negb (bool_decide (is_Some (roomData st))).

(** [disabled={!content}] of the Copy and Download buttons. *)
Definition copyDisabled (st : State) : bool := negb (truthy_str (content st)).

(** [roomData.editor_email || "Unknown"]. *)
Definition lastEditedBy (room : Row) : string :=
  val_or (room !! "editor_email") "Unknown".

(** [handleCopy()]; [written] is the outcome of
    [navigator.clipboard.writeText(content)]. *)
Definition handleCopy (written : Awaited unit) : H State AppEffect unit :=
  h_try_catch
    (c ← h_gets content;
     h_emit (ClipboardWrite c);;
     h_await written;;
     ui_toast "Copied to clipboard" "Text has been copied to your clipboard" false)
    (fun _ =>
       ui_toast "Copy failed" "Unable to copy text to clipboard" true).

(** [handleShare()]; [href] is [window.location.href]. *)
Definition handleShare (href : string) (written : Awaited unit)
    : H State AppEffect unit :=
  h_try_catch
    (h_emit (ClipboardWrite href);;
     h_await written;;
     ui_toast "Room link copied" "Share this link to invite others to the room"
       false)
    (fun _ => ui_toast "Share failed" "Unable to copy room link" true).

(** [`${roomData?.name || roomCode}.txt`]. *)
Definition download_name (roomData : option Row) (roomCode : option string)
    : string :=
  let name := match roomData with
              | Some room => room !! "name"
              | None => None
              end in
  (if truthy name then or_empty name
   else match roomCode with
        | Some code => code
        | None => "undefined"
        end) ++ ".txt".

(** [handleDownload()]. *)
Definition handleDownload (roomCode : option string) : H State AppEffect unit :=
  c ← h_gets content;
  rd ← h_gets roomData;
  h_emit (DownloadFile (download_name rd roomCode) c);;
  ui_toast "Downloaded" "Text file has been downloaded" false.

(** ** Dashboard.tsx, the rest of the component *)

Module Dashboard.

Record DashState : Type := mkDash {
  joinCode : string;
  roomName : string;
  userRooms : list Row;
  loading : bool
}.

(** The reply [{ data, error }] of a query for several rows. *)
Record ListReply : Type := mkListReply {
  rows : option (list Row);
  list_error : option StoreError
}.

Definition setUserRooms (l : list Row) : H DashState AppEffect unit :=
  h_modify (fun st => mkDash (joinCode st) (roomName st) l (loading st)).

Definition setLoading (b : bool) : H DashState AppEffect unit :=
  h_modify (fun st => mkDash (joinCode st) (roomName st) (userRooms st) b).

(** [fetchUserRooms()]. *)
Definition fetchUserRooms (user : option User) (reply : Awaited ListReply)
    : H DashState AppEffect unit :=
  match user with
  | None => h_skip
  | Some u =>
      h_try_catch_finally
        (h_emit (StoreSelectOwned (user_id u));;
         r ← h_await reply;
         match list_error r with
         | Some e => h_throw e
         | None => h_skip
         end;;
         setUserRooms (default [] (rows r)))
        (fun _ => ui_console_error "Error fetching rooms:")
        (setLoading false)
  end.

(** The object inserted by [handleCreateRoom]. *)
Definition create_fields (code name : string) (u : User) : Row :=
  let base : Row :=
    {[ "code" := JStr code;
       "name" := JStr (str_or name ("Room " ++ code));
       "content" := JStr "";
       "created_by" := JStr (user_id u) ]} in
  match user_email u with
  | Some e => <["editor_email" := JStr e]> base
  | None => base
  end.

(** [handleCreateRoom()]; [random36] is [Math.random().toString(36)] and
    [reply] is what the awaited [insert] gives. *)
Definition handleCreateRoom (user : option User) (random36 : string)
    (reply : Awaited StoreReply) : H DashState AppEffect unit :=
  match user with
  | None => h_skip
  | Some u =>
      let code := generateRoomCode random36 in
      h_try_catch
        (name ← h_gets roomName;
         h_emit (StoreInsert (create_fields code name u));;
         r ← h_await reply;
         match error r with
         | Some e => h_throw e
         | None => h_skip
         end;;
         ui_toast "Room created!"
           ("Room " ++ code ++ " has been created successfully") false;;
         ui_navigate ("/room/" ++ code))
        (fun _ =>
           ui_toast "Error" "Failed to create room. Please try again." true)
  end.

(** [disabled={!joinCode.trim()}] of the Join button. *)
Definition joinDisabled (st : DashState) : bool :=
  negb (truthy_str (trim (joinCode st))).

End Dashboard.

(** ** lib/supabase.ts *)

(** [getUserEmail(userId)]; [reply] is what the awaited
    [select("email").eq("id", userId).single()] gives. *)
Definition getUserEmail (userId : jsopt) (reply : Awaited StoreReply)
    : H unit AppEffect string :=
  if negb (truthy userId) then mret "Unknown"
  else
    h_emit (StoreSelectUserEmail (or_empty userId));;
    r ← h_await reply;
    match error r with
    | Some e =>
        ui_console_error "Failed to fetch email:";;
        mret "Unknown"
    | None =>
        mret (val_or (match data r with
                      | Some d => d !! "email"
                      | None => None
                      end) "Unknown")
    end.




(** ** Login.tsx *)

Module Login.

Record LoginState : Type := mkLogin {
  email : string;
  password : string;
  isLogin : bool;
  loading : bool;
  showPassword : bool
}.

Definition setLoading (b : bool) : H LoginState AppEffect unit :=
  h_modify (fun st => mkLogin (email st) (password st) (isLogin st) b
                              (showPassword st)).

Definition setIsLogin (b : bool) : H LoginState AppEffect unit :=
  h_modify (fun st => mkLogin (email st) (password st) b (loading st)
                              (showPassword st)).

(** [handleSubmit(e)]; [reply] is what the awaited [signIn] or [signUp]
    gives. *)
Definition handleSubmit (reply : Awaited StoreReply)
    : H LoginState AppEffect unit :=
  busy ← h_gets loading;
  if (busy : bool) then h_skip
  else
    em ← h_gets email;
    pw ← h_gets password;
    if negb (truthy_str em) || negb (truthy_str pw) then
      ui_toast "Missing fields" "Please fill in all fields" true
    else
      setLoading true;;
      h_try_catch_finally
        (login ← h_gets isLogin;
         h_emit (if (login : bool) then AuthSignIn em pw else AuthSignUp em pw);;
         r ← h_await reply;
         match error r with
         | Some err =>
             ui_console_error "Supabase Auth Error:";;
             ui_toast (if (login : bool) then "Login failed"
                       else "Registration failed")
               (str_or (err_message err) "Something went wrong.") true
         | None =>
             if (login : bool) then
               ui_toast "Welcome back!" "You have been logged in successfully"
                 false;;
               ui_navigate "/dashboard"
             else
               ui_toast "Account created!"
                 "Please check your email to confirm your account before logging in (if required)."
                 false;;
               setIsLogin true
         end)
        (fun _ =>
           ui_console_error "Unexpected error:";;
           ui_toast "Error" "Something went wrong. Please try again." true)
        (setLoading false).

End Login.

(** ** The earlier editor (the second file of pages/Index.tsx) *)

Module Legacy.

(** Its realtime callback: every payload is applied. *)
Definition onRemoteUpdate (payload : option Row) : M unit :=
  match payload with
  | None => skip
  | Some next =>
      setRoomData (Some next);;
      setContent (val_or (next !! "content") "")
  end.

Definition deliver (es : list Row) (st : State) : State :=
  foldl (fun s e => exec (onRemoteUpdate (Some e)) s) st es.

End Legacy.

(** ** Sample data *)

(** A row of [rooms] with the columns of [RoomRow]. *)
Definition room_row (code content : string) (editor_email updated_at : jsval)
    : Row :=
  {[ "id" := JStr "1";
     "code" := JStr code;
     "name" := JStr ("Room " ++ code);
     "content" := JStr content;
     "editor_email" := editor_email;
     "updated_at" := updated_at ]}.

Definition alice : User := mkUser "u-alice" (Some "alice@example.com").

(** An account without an email address. *)
Definition anon : User := mkUser "u-anon" None.

(** Alice's editor showing [c] with the watermark [w]. *)
Definition alice_editor (c : string) (w : jsval) : State :=
  mkState (Some (room_row "ABC123" c (JStr "bob@example.com") w)) c false false
    w (JStr "alice@example.com").

Definition jan (day : string) : string :=
  "2024-01-" ++ day ++ "T00:00:00Z".

(** Bob's save of [c] on the given day of January 2024, as the feed
    reports it. *)
Definition bob_event (c day : string) : Row :=
  room_row "ABC123" c (JStr "bob@example.com") (JStr (jan day)).

(** U+00A0 in UTF-8. *)
Definition no_break_space : string := String "194" (String "160" "").

(** U+2028 in UTF-8. *)
Definition line_separator : string :=
  String "226" (String "128" (String "168" "")).

(** U+00DF, the sharp s, in UTF-8. *)
Definition sharp_s : string := String "195" (String "159" "").

(** A fragment of the table of upper-case forms: the sharp s becomes SS,
    other runs are left as they are. *)
Definition sample_upper_wide (run : string) : string :=
  if String.eqb run sharp_s then "SS" else run.

Definition ok_reply : Awaited StoreReply := Resolved (mkReply None None).

Definition found_reply (room : Row) : Awaited StoreReply :=
  Resolved (mkReply (Some room) None).

Definition no_rows_reply : StoreReply :=
  mkReply None (Some (mkStoreError (Some "PGRST116")
                        "JSON object requested, multiple (or no) rows returned")).

(** * Properties *)

(** Case analysis on membership in an explicit list. *)
Ltac each_member H :=
  repeat (apply elem_of_cons in H as [-> | H]);
  [.. | apply elem_of_nil in H; destruct H].


(** ** The recency comparison *)

Section IsNewerFacts.

Variable Date_parse : string -> option Z.

Lemma truthy_cases (v : jsopt) :
  truthy v = true -> exists s, v = Some (JStr s) /\ s <> "".
Proof.
  destruct v as [[|s]|]; simpl; try discriminate.
  unfold truthy_str. intros H. exists s. split; [reflexivity|].
  intros ->. simpl in H. discriminate.
Qed.

Lemma truthy_JStr (s : string) : s <> "" -> truthy (Some (JStr s)) = true.
Proof.
  intros Hs. simpl. unfold truthy_str.
  destruct (String.eqb_spec s ""); [contradiction | reflexivity].
Qed.

Lemma truthy_or_null (v : jsopt) : truthy (Some (or_null v)) = truthy v.
Proof. destruct v as [[|s]|]; reflexivity. Qed.

Lemma ToString_or_null (v : jsopt) :
  truthy v = true -> ToString (Some (or_null v)) = ToString v.
Proof. destruct v as [[|s]|]; simpl; try discriminate; reflexivity. Qed.

Lemma isNewer_falsy_l (a b : jsopt) : truthy a = false -> isNewer Date_parse a b = false.
Proof.
  intros Ha. unfold isNewer. rewrite Ha. simpl.
  destruct (truthy b); reflexivity.
Qed.

Lemma isNewer_falsy_r (a b : jsopt) :
  truthy a = true -> truthy b = false -> isNewer Date_parse a b = true.
Proof. intros Ha Hb. unfold isNewer. rewrite Ha, Hb. reflexivity. Qed.

Lemma isNewer_both (a b : jsopt) :
  truthy a = true -> truthy b = true ->
  isNewer Date_parse a b = num_gt (Date_parse (ToString a)) (Date_parse (ToString b)).
Proof.
  intros Ha Hb. unfold isNewer. rewrite Ha, Hb. simpl.
  destruct (Date_parse (ToString a)), (Date_parse (ToString b)); reflexivity.
Qed.

Lemma isNewer_truthy_l (a b : jsopt) : isNewer Date_parse a b = true -> truthy a = true.
Proof.
  intros H. destruct (truthy a) eqn:Ha; [reflexivity|].
  rewrite isNewer_falsy_l in H by assumption. discriminate.
Qed.

Lemma num_gt_spec (x y : option Z) :
  num_gt x y = true <-> exists tx ty, x = Some tx /\ y = Some ty /\ ty < tx.
Proof.
  split.
  - destruct x as [tx|], y as [ty|]; simpl; try discriminate.
    intros H. exists tx, ty. repeat split. lia.
  - intros (tx & ty & -> & -> & H). simpl. lia.
Qed.

Lemma isNewer_irrefl (a : jsopt) : isNewer Date_parse a a = false.
Proof.
  destruct (truthy a) eqn:Ha.
  - rewrite isNewer_both by assumption.
    destruct (Date_parse (ToString a)); simpl; [lia | reflexivity].
  - apply isNewer_falsy_l; assumption.
Qed.

Lemma isNewer_asym (a b : jsopt) : isNewer Date_parse a b = true -> isNewer Date_parse b a = false.
Proof.
  intros H. pose proof (isNewer_truthy_l _ _ H) as Ha.
  destruct (truthy b) eqn:Hb.
  - rewrite isNewer_both in * by assumption.
    apply num_gt_spec in H as (ta & tb & -> & -> & Hlt). simpl. lia.
  - apply isNewer_falsy_l; assumption.
Qed.

Lemma isNewer_trans (a b c : jsopt) :
  isNewer Date_parse a b = true -> isNewer Date_parse b c = true -> isNewer Date_parse a c = true.
Proof.
  intros Hab Hbc.
  pose proof (isNewer_truthy_l _ _ Hab) as Ha.
  pose proof (isNewer_truthy_l _ _ Hbc) as Hb.
  destruct (truthy c) eqn:Hc.
  - rewrite isNewer_both in * by assumption.
    apply num_gt_spec in Hab as (ta & tb & Ea & Eb & Hlt).
    apply num_gt_spec in Hbc as (tb' & tc & Eb' & Ec & Hlt').
    rewrite Ea, Ec. rewrite Eb in Eb'. injection Eb' as <-. simpl. lia.
  - apply isNewer_falsy_r; assumption.
Qed.

Lemma isNewer_or_null_r (a b : jsopt) :
  isNewer Date_parse a (Some (or_null b)) = isNewer Date_parse a b.
Proof.
  destruct (truthy a) eqn:Ha; [|rewrite !isNewer_falsy_l by assumption; reflexivity].
  destruct (truthy b) eqn:Hb.
  - rewrite !isNewer_both; rewrite ?truthy_or_null; try assumption.
    rewrite ToString_or_null by assumption. reflexivity.
  - rewrite !isNewer_falsy_r; rewrite ?truthy_or_null; try assumption. reflexivity.
Qed.

Lemma isNewer_or_null_l (a b : jsopt) :
  isNewer Date_parse (Some (or_null a)) b = isNewer Date_parse a b.
Proof.
  destruct (truthy a) eqn:Ha.
  - destruct (truthy b) eqn:Hb.
    + rewrite !isNewer_both; rewrite ?truthy_or_null; try assumption.
      rewrite ToString_or_null by assumption. reflexivity.
    + rewrite !isNewer_falsy_r; rewrite ?truthy_or_null; try assumption. reflexivity.
  - rewrite !isNewer_falsy_l; rewrite ?truthy_or_null; try assumption. reflexivity.
Qed.

(** The empty string counts as absent: the guards of [isNewer] test
    truthiness. *)
Lemma isNewer_empty_string_absent :
  isNewer Date_parse (Some (JStr "")) (Some JNull) = false
  /\ isNewer Date_parse (Some (JStr "")) None = false
  /\ forall s, s <> "" -> isNewer Date_parse (Some (JStr s)) (Some (JStr "")) = true.
Proof.
  repeat split.
  intros s Hs. apply isNewer_falsy_r; [apply truthy_JStr; assumption | reflexivity].
Qed.

End IsNewerFacts.

(** ** The realtime callback *)

Section Reconciliation.

Variable Date_parse : string -> option Z.

(** What one delivery does, read off the handler. *)
Lemma onRemoteUpdate_run (next : Row) (st : State) :
  onRemoteUpdate Date_parse (Some next) st =
  (Done tt,
   if isSelfUpdate (myEmailRef st) next then
     mkState (Some (merge_row (roomData st) next)) (content st) (isSaving st)
       (loading st)
       (if isNewer Date_parse (next !! "updated_at") (Some (lastAppliedAtRef st))
        then or_null (next !! "updated_at") else lastAppliedAtRef st)
       (myEmailRef st)
   else if isNewer Date_parse (next !! "updated_at") (Some (lastAppliedAtRef st))
   then mkState (Some next) (or_empty (next !! "content")) (isSaving st)
          (loading st) (or_null (next !! "updated_at")) (myEmailRef st)
   else st,
   []).
Proof.
  unfold onRemoteUpdate, mbind, M_bind, gets. simpl.
  destruct (isSelfUpdate (myEmailRef st) next); simpl;
    destruct (isNewer Date_parse (next !! "updated_at") (Some (lastAppliedAtRef st)));
    reflexivity.
Qed.

Lemma onRemoteUpdate_missing (st : State) :
  onRemoteUpdate Date_parse None st = (Done tt, st, []).
Proof. reflexivity. Qed.

Lemma onRemoteUpdate_myEmail (payload : option Row) (st : State) :
  myEmailRef (exec (onRemoteUpdate Date_parse payload) st) = myEmailRef st.
Proof.
  destruct payload as [next|]; [|reflexivity].
  unfold exec. rewrite onRemoteUpdate_run. simpl.
  destruct (isSelfUpdate _ _); [reflexivity|].
  destruct (isNewer _ _ _); reflexivity.
Qed.

(** C3. [isNewer(a, b)], where present means truthy (a non-empty string;
    [null], [undefined] and the empty string are absent, as the guards
    [!a] and [!b] test): absent against absent is not newer, present
    against absent is newer, absent against present is not newer, two
    present values that parse are compared as time values with strictly
    later meaning newer, and when either side fails to parse the result is
    [!!a && !b], so newer only when exactly one side is a non-empty
    string, which two present values never are.  With the watermark
    [null], an event stamped 2024-01-01T00:00:00Z is newer and applied;
    with the watermark 2024-01-02T00:00:00Z it is not newer and is
    discarded. *)
Theorem isNewer_policy :
  (forall a b, truthy a = false -> truthy b = false ->
     isNewer Date_parse a b = false)
  /\ (forall a b, truthy a = true -> truthy b = false ->
     isNewer Date_parse a b = true)
  /\ (forall a b, truthy a = false -> truthy b = true ->
     isNewer Date_parse a b = false)
  /\ (forall a b ta tb, truthy a = true -> truthy b = true ->
     Date_parse (ToString a) = Some ta -> Date_parse (ToString b) = Some tb ->
     isNewer Date_parse a b = bool_decide (tb < ta))
  /\ (forall a b,
     Date_parse (ToString a) = None \/ Date_parse (ToString b) = None ->
     isNewer Date_parse a b = truthy a && negb (truthy b)
     /\ (isNewer Date_parse a b = true -> xorb (truthy a) (truthy b) = true)
     /\ (truthy a = true -> truthy b = true -> isNewer Date_parse a b = false))
  /\ (forall st next,
     lastAppliedAtRef st = JNull ->
     next !! "updated_at" = Some (JStr "2024-01-01T00:00:00Z") ->
     let st' := exec (onRemoteUpdate Date_parse (Some next)) st in
     isNewer Date_parse (next !! "updated_at") (Some (lastAppliedAtRef st)) = true
     /\ lastAppliedAtRef st' = JStr "2024-01-01T00:00:00Z"
     /\ (isSelfUpdate (myEmailRef st) next = false ->
         content st' = or_empty (next !! "content")
         /\ roomData st' = Some next))
  /\ (Date_parse "2024-01-01T00:00:00Z" = Some 1704067200000 ->
      Date_parse "2024-01-02T00:00:00Z" = Some 1704153600000 ->
      forall st next,
      lastAppliedAtRef st = JStr "2024-01-02T00:00:00Z" ->
      next !! "updated_at" = Some (JStr "2024-01-01T00:00:00Z") ->
      let st' := exec (onRemoteUpdate Date_parse (Some next)) st in
      isNewer Date_parse (next !! "updated_at") (Some (lastAppliedAtRef st)) = false
      /\ content st' = content st
      /\ lastAppliedAtRef st' = lastAppliedAtRef st
      /\ (isSelfUpdate (myEmailRef st) next = false -> st' = st)).
Proof.
  split; [|split; [|split; [|split; [|split; [|split]]]]].
  - intros a b Ha _. apply isNewer_falsy_l; assumption.
  - intros a b Ha Hb. apply isNewer_falsy_r; assumption.
  - intros a b Ha _. apply isNewer_falsy_l; assumption.
  - intros a b ta tb Ha Hb Ea Eb.
    rewrite isNewer_both, Ea, Eb by assumption. simpl.
    destruct (Z.gtb_spec ta tb); symmetry;
      [apply bool_decide_eq_true | apply bool_decide_eq_false]; lia.
  - intros a b Hnan.
    assert (E : isNewer Date_parse a b = truthy a && negb (truthy b)).
    { destruct (truthy a) eqn:Ha.
      - destruct (truthy b) eqn:Hb.
        + rewrite isNewer_both by assumption.
          destruct Hnan as [-> | ->]; simpl; [reflexivity|].
          destruct (Date_parse (ToString a)); reflexivity.
        + apply isNewer_falsy_r; assumption.
      - apply isNewer_falsy_l; assumption. }
    split; [exact E|]. rewrite E. split.
    + destruct (truthy a), (truthy b); simpl; congruence.
    + intros -> ->. reflexivity.
  - intros st next Hwm Hts st'.
    assert (Hn : isNewer Date_parse (next !! "updated_at")
                   (Some (lastAppliedAtRef st)) = true).
    { rewrite Hwm, Hts. apply isNewer_falsy_r; reflexivity. }
    split; [exact Hn|].
    subst st'. unfold exec. rewrite onRemoteUpdate_run. simpl.
    rewrite Hn. rewrite Hts.
    destruct (isSelfUpdate (myEmailRef st) next); simpl.
    + split; [reflexivity|]. discriminate.
    + split; [reflexivity|]. intros _. split; reflexivity.
  - intros P1 P2 st next Hwm Hts st'.
    assert (Hn : isNewer Date_parse (next !! "updated_at")
                   (Some (lastAppliedAtRef st)) = false).
    { rewrite Hwm, Hts. rewrite isNewer_both by reflexivity.
      simpl. rewrite P1, P2. reflexivity. }
    split; [exact Hn|].
    subst st'. unfold exec. rewrite onRemoteUpdate_run. simpl.
    rewrite Hn.
    destruct (isSelfUpdate (myEmailRef st) next); simpl.
    + repeat split. discriminate.
    + repeat split.
Qed.

(** C5, as amended.  The callback classifies an event as a self-update
    exactly when the local email and the event's [editor_email] are both
    present (non-empty strings) and equal; two absent identities are not
    a self-update. *)
Theorem isSelfUpdate_iff (myEmail : jsval) (next : Row) :
  isSelfUpdate myEmail next = true <->
  exists e, e <> "" /\ myEmail = JStr e /\ next !! "editor_email" = Some (JStr e).
Proof.
  unfold isSelfUpdate, strict_eq. split.
  - intros H. apply andb_prop in H as [H Heq]. apply andb_prop in H as [Hmy He].
    apply bool_decide_eq_true in Heq.
    apply truthy_cases in Hmy as (e & Hmy & Hne).
    exists e. injection Hmy as ->. split; [assumption|]. split; [reflexivity|].
    exact Heq.
  - intros (e & Hne & -> & ->).
    rewrite truthy_JStr by assumption. simpl.
    apply bool_decide_eq_true. reflexivity.
Qed.

(** C2.  A delivery classified as a self-update leaves the content buffer
    as it is, whatever the event's timestamp: it merges the event into
    [roomData], moves the watermark to the event's timestamp only when that
    is newer than the watermark, and does nothing else. *)
Theorem self_update_keeps_content (st : State) (next : Row) :
  isSelfUpdate (myEmailRef st) next = true ->
  let st' := exec (onRemoteUpdate Date_parse (Some next)) st in
  content st' = content st
  /\ roomData st' = Some (merge_row (roomData st) next)
  /\ lastAppliedAtRef st' =
       (if isNewer Date_parse (next !! "updated_at") (Some (lastAppliedAtRef st))
        then or_null (next !! "updated_at") else lastAppliedAtRef st)
  /\ isSaving st' = isSaving st
  /\ loading st' = loading st
  /\ myEmailRef st' = myEmailRef st
  /\ trace (onRemoteUpdate Date_parse (Some next)) st = [].
Proof.
  intros Hself st'. subst st'. unfold exec, trace.
  rewrite onRemoteUpdate_run, Hself. simpl. repeat split.
Qed.

Lemma merge_row_twice (prev : option Row) (next : Row) :
  merge_row (Some (merge_row prev next)) next = merge_row prev next.
Proof.
  unfold merge_row. simpl.
  rewrite (assoc_L (∪)). rewrite (idemp_L (∪)). reflexivity.
Qed.

(** C9.  Delivering an event a second time changes nothing: the state
    after two deliveries is the state after one.  An event that is not
    newer than the watermark leaves content buffer and watermark as they
    are (and, when it is not a self-update, the whole state), and no
    delivery raises an error or has any outside effect. *)
Theorem onRemoteUpdate_idempotent :
  (forall st payload,
     let st1 := exec (onRemoteUpdate Date_parse payload) st in
     exec (onRemoteUpdate Date_parse payload) st1 = st1)
  /\ (forall st next,
     isNewer Date_parse (next !! "updated_at") (Some (lastAppliedAtRef st)) = false ->
     let st' := exec (onRemoteUpdate Date_parse (Some next)) st in
     content st' = content st
     /\ lastAppliedAtRef st' = lastAppliedAtRef st
     /\ (isSelfUpdate (myEmailRef st) next = false -> st' = st))
  /\ (forall st payload,
     trace (onRemoteUpdate Date_parse payload) st = []
     /\ outcome (onRemoteUpdate Date_parse payload) st = Done tt).
Proof.
  split; [|split].
  - intros st [next|] st1; [|reflexivity].
    subst st1. unfold exec. rewrite !onRemoteUpdate_run. simpl.
    destruct (isSelfUpdate (myEmailRef st) next) eqn:Hself; simpl.
    + rewrite Hself. rewrite merge_row_twice. f_equal.
      destruct (isNewer Date_parse (next !! "updated_at")
                  (Some (lastAppliedAtRef st))) eqn:Hn.
      * rewrite isNewer_or_null_r, isNewer_irrefl. reflexivity.
      * rewrite Hn. reflexivity.
    + destruct (isNewer Date_parse (next !! "updated_at")
                  (Some (lastAppliedAtRef st))) eqn:Hn; simpl.
      * rewrite Hself. rewrite isNewer_or_null_r, isNewer_irrefl. reflexivity.
      * rewrite Hself, Hn. reflexivity.
  - intros st next Hn st'. subst st'. unfold exec.
    rewrite onRemoteUpdate_run, Hn. simpl.
    destruct (isSelfUpdate (myEmailRef st) next); simpl.
    + repeat split. discriminate.
    + repeat split.
  - intros st [next|]; [|split; reflexivity].
    unfold trace, outcome. rewrite onRemoteUpdate_run. split; reflexivity.
Qed.

(** ** Saving *)

Lemma handleSave_ok_run (u : User) (code nowIso : string) (r : StoreReply)
    (st : State) :
  truthy_str code = true -> error r = None ->
  handleSave (Some u) (Some code) nowIso (Resolved r) st =
  (Done tt,
   mkState (roomData st) (content st) false (loading st) (JStr nowIso)
     (myEmailRef st),
   [StoreUpdate code (save_fields (content st) u nowIso);
    Toast "Saved successfully" "Your text has been saved to the room" false]).
Proof.
  intros Hcode Herr. unfold handleSave. rewrite Hcode. simpl.
  unfold mbind, M_bind, try_catch_finally. simpl. rewrite Herr. reflexivity.
Qed.

Lemma handleSave_fail_run (u : User) (code nowIso : string)
    (reply : Awaited StoreReply) (st : State) :
  truthy_str code = true -> save_failed reply ->
  handleSave (Some u) (Some code) nowIso reply st =
  (Done tt,
   mkState (roomData st) (content st) false (loading st) (lastAppliedAtRef st)
     (myEmailRef st),
   [StoreUpdate code (save_fields (content st) u nowIso);
    ConsoleError "Error saving room:";
    Toast "Save failed" "There was an error saving your text" true]).
Proof.
  intros Hcode Hfail. unfold handleSave. rewrite Hcode. simpl.
  unfold mbind, M_bind, try_catch_finally. simpl.
  destruct reply as [r|e]; simpl.
  - destruct (error r) as [e|] eqn:Herr; [reflexivity|].
    exfalso. apply Hfail. exact Herr.
  - reflexivity.
Qed.

Lemma save_fields_updated_at (c : string) (u : User) (nowIso : string) :
  save_fields c u nowIso !! "updated_at" = Some (JStr nowIso).
Proof.
  unfold save_fields. destruct (user_email u); reflexivity.
Qed.

(** C6.  A successful save sets the watermark to the timestamp it wrote
    and leaves the content buffer alone; the echo of that write, a row that
    carries the written fields, then leaves content buffer and watermark
    unchanged. *)
Theorem save_then_echo (st : State) (u : User) (code nowIso : string)
    (r : StoreReply) :
  truthy_str code = true -> error r = None ->
  let save := handleSave (Some u) (Some code) nowIso (Resolved r) in
  let st1 := exec save st in
  lastAppliedAtRef st1 = JStr nowIso
  /\ content st1 = content st
  /\ trace save st =
       [StoreUpdate code (save_fields (content st) u nowIso);
        Toast "Saved successfully" "Your text has been saved to the room" false]
  /\ forall echo : Row,
       save_fields (content st) u nowIso ⊆ echo ->
       let st2 := exec (onRemoteUpdate Date_parse (Some echo)) st1 in
       content st2 = content st /\ lastAppliedAtRef st2 = JStr nowIso.
Proof.
  intros Hcode Herr save st1. subst save st1. unfold exec, trace.
  rewrite handleSave_ok_run by assumption.
  cbn [fst snd lastAppliedAtRef content].
  do 3 (split; [reflexivity|]).
  intros echo Hsub.
  assert (Hts : echo !! "updated_at" = Some (JStr nowIso)).
  { eapply lookup_weaken; [apply save_fields_updated_at | eassumption]. }
  rewrite onRemoteUpdate_run. simpl.
  rewrite Hts, isNewer_irrefl.
  destruct (isSelfUpdate (myEmailRef st) echo); split; reflexivity.
Qed.

(** C7.  A failed save surfaces an error (it logs and shows the toast
    "Save failed") and leaves the editor as it was: content buffer,
    watermark, room data, loading flag and email are unchanged, and the
    saving flag is down again. *)
Theorem save_failure_preserves_state (st : State) (u : User)
    (code nowIso : string) (reply : Awaited StoreReply) :
  truthy_str code = true -> save_failed reply ->
  let save := handleSave (Some u) (Some code) nowIso reply in
  let st' := exec save st in
  content st' = content st
  /\ lastAppliedAtRef st' = lastAppliedAtRef st
  /\ roomData st' = roomData st
  /\ loading st' = loading st
  /\ myEmailRef st' = myEmailRef st
  /\ isSaving st' = false
  /\ (isSaving st = false -> st' = st)
  /\ trace save st =
       [StoreUpdate code (save_fields (content st) u nowIso);
        ConsoleError "Error saving room:";
        Toast "Save failed" "There was an error saving your text" true]
  /\ outcome save st = Done tt.
Proof.
  intros Hcode Hfail save st'. subst save st'. unfold exec, trace, outcome.
  rewrite handleSave_fail_run by assumption. simpl.
  repeat split.
  intros Hs. destruct st; simpl in *. subst. reflexivity.
Qed.

(** ** Sequences of deliveries *)

Lemma deliver_cons (e : Row) (es : list Row) (st : State) :
  deliver Date_parse (e :: es) st =
  deliver Date_parse es (exec (onRemoteUpdate Date_parse (Some e)) st).
Proof. reflexivity. Qed.

Lemma deliver_app (es1 es2 : list Row) (st : State) :
  deliver Date_parse (es1 ++ es2) st =
  deliver Date_parse es2 (deliver Date_parse es1 st).
Proof.
  unfold deliver, run. rewrite !fmap_app. apply foldl_app.
Qed.

Lemma event_time_inv (e : Row) (t : Z) :
  event_time Date_parse e = Some t ->
  exists s, e !! "updated_at" = Some (JStr s) /\ s <> "" /\ Date_parse s = Some t.
Proof.
  unfold event_time. destruct (e !! "updated_at") as [[|s]|]; try discriminate.
  unfold truthy_str. destruct (String.eqb_spec s ""); simpl; [discriminate|].
  intros H. exists s. auto.
Qed.

(** An event whose time value is not after a parsed watermark is not
    newer. *)
Lemma not_newer_than_parsed (e : Row) (t tw : Z) (sw : string) :
  event_time Date_parse e = Some t -> sw <> "" -> Date_parse sw = Some tw ->
  t <= tw ->
  isNewer Date_parse (e !! "updated_at") (Some (JStr sw)) = false.
Proof.
  intros He Hsw Hpw Hle.
  apply event_time_inv in He as (s & -> & Hs & Hp).
  rewrite isNewer_both by (apply truthy_JStr; assumption).
  simpl. rewrite Hp, Hpw. simpl. lia.
Qed.

Lemma newer_than_parsed (e : Row) (t tw : Z) (sw : string) :
  event_time Date_parse e = Some t -> sw <> "" -> Date_parse sw = Some tw ->
  tw < t ->
  isNewer Date_parse (e !! "updated_at") (Some (JStr sw)) = true.
Proof.
  intros He Hsw Hpw Hlt.
  apply event_time_inv in He as (s & -> & Hs & Hp).
  rewrite isNewer_both by (apply truthy_JStr; assumption).
  simpl. rewrite Hp, Hpw. simpl. lia.
Qed.

(** Events from others that are not after a parsed watermark are all
    discarded. *)
Lemma deliver_stale_batch (es : list Row) (st : State) (sw : string) (tw : Z) :
  lastAppliedAtRef st = JStr sw -> sw <> "" -> Date_parse sw = Some tw ->
  (forall e, e ∈ es ->
     isSelfUpdate (myEmailRef st) e = false
     /\ exists t, event_time Date_parse e = Some t /\ t <= tw) ->
  deliver Date_parse es st = st.
Proof.
  intros Hwm Hsw Hpw. induction es as [|e es IH]; intros Hall; [reflexivity|].
  rewrite deliver_cons.
  destruct (Hall e) as (Hself & t & Ht & Hle); [left|].
  assert (E : exec (onRemoteUpdate Date_parse (Some e)) st = st).
  { unfold exec. rewrite onRemoteUpdate_run, Hself, Hwm.
    rewrite (not_newer_than_parsed e t tw sw) by assumption. reflexivity. }
  rewrite E. apply IH. intros e' He'. apply Hall. right. exact He'.
Qed.

(** Events from others that are all before [tmax] leave the watermark
    where it was or at a parsed time before [tmax]. *)
Lemma deliver_early_batch (es : list Row) (tmax : Z) :
  forall st,
  (forall e, e ∈ es ->
     isSelfUpdate (myEmailRef st) e = false
     /\ exists t, event_time Date_parse e = Some t /\ t < tmax) ->
  let st' := deliver Date_parse es st in
  myEmailRef st' = myEmailRef st
  /\ (lastAppliedAtRef st' = lastAppliedAtRef st
      \/ exists s t, lastAppliedAtRef st' = JStr s /\ s <> ""
                     /\ Date_parse s = Some t /\ t < tmax).
Proof.
  induction es as [|e es IH]; intros st Hall; [split; [reflexivity | left; reflexivity]|].
  rewrite deliver_cons.
  destruct (Hall e) as (Hself & t & Ht & Hlt); [left|].
  set (st1 := exec (onRemoteUpdate Date_parse (Some e)) st).
  assert (Hmy : myEmailRef st1 = myEmailRef st) by apply onRemoteUpdate_myEmail.
  destruct (IH st1) as (Hmy' & Hwm').
  { intros e' He'. rewrite Hmy. apply Hall. right. exact He'. }
  cbv zeta. split; [congruence|].
  destruct Hwm' as [Hsame | Hparsed]; [|right; exact Hparsed].
  rewrite Hsame. subst st1. unfold exec. rewrite onRemoteUpdate_run, Hself.
  destruct (isNewer Date_parse (e !! "updated_at") (Some (lastAppliedAtRef st)));
    [|left; reflexivity].
  right. apply event_time_inv in Ht as (s & Hs & Hne & Hp).
  exists s, t. simpl. rewrite Hs. auto.
Qed.

(** C1.  Events from others, with time values that parse and are pairwise
    distinct, are delivered in any order.  When the latest of them is newer
    than the watermark the deliveries start from, the content buffer ends
    as the content of that latest event (and the watermark as its
    timestamp). *)
Theorem latest_remote_event_wins (st : State) (es delivered : list Row)
    (emax : Row) :
  es ≡ₚ delivered ->
  (forall e, e ∈ es -> isSelfUpdate (myEmailRef st) e = false) ->
  (forall e, e ∈ es -> is_Some (event_time Date_parse e)) ->
  NoDup (event_time Date_parse <$> es) ->
  emax ∈ es ->
  (forall e t tmax, e ∈ es -> event_time Date_parse e = Some t ->
     event_time Date_parse emax = Some tmax -> t <= tmax) ->
  isNewer Date_parse (emax !! "updated_at") (Some (lastAppliedAtRef st)) = true ->
  let st' := deliver Date_parse delivered st in
  content st' = or_empty (emax !! "content")
  /\ lastAppliedAtRef st' = or_null (emax !! "updated_at")
  /\ roomData st' = Some emax.
Proof.
  intros Hperm Hremote Hparse Hnodup Hin Hmax Hnewer.
  assert (Hremote' : forall e, e ∈ delivered ->
            isSelfUpdate (myEmailRef st) e = false).
  { intros e He. apply Hremote. rewrite Hperm. exact He. }
  assert (Hparse' : forall e, e ∈ delivered -> is_Some (event_time Date_parse e)).
  { intros e He. apply Hparse. rewrite Hperm. exact He. }
  assert (Hmax' : forall e t tmax, e ∈ delivered ->
            event_time Date_parse e = Some t ->
            event_time Date_parse emax = Some tmax -> t <= tmax).
  { intros e t tmax He. apply Hmax. rewrite Hperm. exact He. }
  rewrite Hperm in Hnodup, Hin.
  clear Hperm Hremote Hparse Hmax es.
  destruct (Hparse' emax Hin) as [tmax Htmax].
  apply list_elem_of_split in Hin as (l1 & l2 & ->).
  rewrite fmap_app, fmap_cons in Hnodup.
  apply NoDup_app in Hnodup as (_ & Hdisj & Hnd2).
  apply NoDup_cons in Hnd2 as (Hnot2 & _).
  assert (Hbefore : forall e, e ∈ (l1 ++ l2)%list ->
            exists t, event_time Date_parse e = Some t /\ t < tmax).
  { intros e He.
    destruct (Hparse' e) as [t Ht].
    { apply elem_of_app in He as [He|He]; apply elem_of_app;
        [left | right; right]; exact He. }
    exists t. split; [exact Ht|].
    assert (t <= tmax).
    { apply (Hmax' e t tmax); try assumption.
      apply elem_of_app in He as [He|He]; apply elem_of_app;
        [left | right; right]; exact He. }
    assert (t <> tmax); [|lia].
    intros ->. apply elem_of_app in He as [He|He].
    - apply (Hdisj (Some tmax)).
      + rewrite <- Ht. apply list_elem_of_fmap_2. exact He.
      + rewrite Htmax. left.
    - apply Hnot2. rewrite Htmax, <- Ht. apply list_elem_of_fmap_2. exact He. }
  intros st'. subst st'. rewrite deliver_app, deliver_cons.
  destruct (deliver_early_batch l1 tmax st) as (Hmy1 & Hwm1).
  { intros e He. split.
    - apply Hremote'. apply elem_of_app. left. exact He.
    - apply Hbefore. apply elem_of_app. left. exact He. }
  set (st1 := deliver Date_parse l1 st) in *.
  assert (Hn1 : isNewer Date_parse (emax !! "updated_at")
                  (Some (lastAppliedAtRef st1)) = true).
  { destruct Hwm1 as [-> | (s & t & -> & Hs & Hp & Hlt)]; [exact Hnewer|].
    apply (newer_than_parsed emax tmax t s); assumption. }
  assert (Hself1 : isSelfUpdate (myEmailRef st1) emax = false).
  { rewrite Hmy1. apply Hremote'. apply elem_of_app. right. left. }
  set (st2 := exec (onRemoteUpdate Date_parse (Some emax)) st1).
  assert (E2 : st2 = mkState (Some emax) (or_empty (emax !! "content"))
                 (isSaving st1) (loading st1) (or_null (emax !! "updated_at"))
                 (myEmailRef st1)).
  { subst st2. unfold exec. rewrite onRemoteUpdate_run, Hself1, Hn1. reflexivity. }
  destruct (event_time_inv emax tmax Htmax) as (smax & Hsmax & Hne & Hpmax).
  rewrite (deliver_stale_batch l2 st2 smax tmax).
  - rewrite E2. simpl. repeat split.
  - rewrite E2. simpl. rewrite Hsmax. reflexivity.
  - exact Hne.
  - exact Hpmax.
  - intros e He. split.
    + rewrite E2. simpl. rewrite Hmy1. apply Hremote'.
      apply elem_of_app. right. right. exact He.
    + destruct (Hbefore e) as (t & Ht & Hlt).
      { apply elem_of_app. right. exact He. }
      exists t. split; [exact Ht | lia].
Qed.

(** ** The watermark across deliveries *)

Lemma no_regress_refl (w : jsval) : no_regress Date_parse w w.
Proof. left. reflexivity. Qed.

Lemma no_regress_trans (w1 w2 w3 : jsval) :
  no_regress Date_parse w1 w2 -> no_regress Date_parse w2 w3 ->
  no_regress Date_parse w1 w3.
Proof.
  intros [-> | H12] [-> | H23].
  - left. reflexivity.
  - right. exact H23.
  - right. exact H12.
  - right. eapply isNewer_trans; eassumption.
Qed.

(** A delivery keeps the watermark or moves it to a strictly newer
    timestamp; it keeps the content buffer, or replaces it by the content
    of an event of someone else that is strictly newer than the watermark,
    and whose timestamp becomes the watermark. *)
Lemma remote_step_guarded (st : State) (payload : option Row) :
  let st' := step Date_parse st (OpRemote payload) in
  no_regress Date_parse (lastAppliedAtRef st) (lastAppliedAtRef st')
  /\ (content st' = content st
      \/ exists next, payload = Some next
           /\ isSelfUpdate (myEmailRef st) next = false
           /\ isNewer Date_parse (next !! "updated_at")
                (Some (lastAppliedAtRef st)) = true
           /\ roomData st' = Some next
           /\ content st' = or_empty (next !! "content")
           /\ lastAppliedAtRef st' = or_null (next !! "updated_at")).
Proof.
  destruct payload as [next|]; [|split; left; reflexivity].
  cbv zeta. unfold step, exec. rewrite onRemoteUpdate_run. simpl.
  destruct (isSelfUpdate (myEmailRef st) next) eqn:Hself; simpl;
    destruct (isNewer Date_parse (next !! "updated_at")
                (Some (lastAppliedAtRef st))) eqn:Hn; simpl.
  - split; [right; rewrite isNewer_or_null_l; exact Hn | left; reflexivity].
  - split; left; reflexivity.
  - split; [right; rewrite isNewer_or_null_l; exact Hn|].
    right. exists next. auto 10.
  - split; left; reflexivity.
Qed.

End Reconciliation.

(** ** Loading *)

Lemma loadRoom_not_found_run (u : User) (code : string) (isMounted : bool)
    (r : StoreReply) (st : State) :
  not_found_reply r ->
  loadRoom (Some u) code isMounted (Resolved r) st =
  (Done tt,
   (if isMounted
    then mkState (roomData st) (content st) (isSaving st) false
           (lastAppliedAtRef st) (myEmailRef st)
    else st),
   [StoreSelect code;
    Toast "Room not found"
      "This room doesn't exist or you don't have access to it." true;
    Navigate "/dashboard"]).
Proof.
  intros [Hdata Herr]. unfold loadRoom, mbind, M_bind, try_catch_finally. simpl.
  destruct (error r) as [e|]; simpl.
  - unfold is_not_found_code. rewrite bool_decide_eq_true_2 by exact Herr.
    simpl. rewrite Hdata. destruct isMounted; reflexivity.
  - rewrite Hdata. destruct isMounted; reflexivity.
Qed.

Lemma loadRoom_settles (u : User) (code : string) (reply : Awaited StoreReply)
    (st : State) :
  loading (exec (loadRoom (Some u) code true reply) st) = false
  /\ outcome (loadRoom (Some u) code true reply) st = Done tt.
Proof.
  unfold exec, outcome, loadRoom, mbind, M_bind, try_catch_finally. simpl.
  destruct reply as [r|e]; simpl; [|split; reflexivity].
  destruct (error r) as [e|]; simpl.
  - destruct (is_not_found_code e); simpl; [|split; reflexivity].
    destruct (data r); split; reflexivity.
  - destruct (data r); split; reflexivity.
Qed.

(** C8.  When no row matches the code, the load shows the "Room not found"
    toast and navigates to the dashboard, after its one request to the
    store and with nothing else.  Whatever the store answers (a row, no
    row, an error or a rejection), the load as the mount effect starts it
    ends with the loading flag cleared and raises nothing. *)
Theorem load_not_found_redirects :
  (forall u code r st,
     not_found_reply r ->
     let load := loadRoom (Some u) code true (Resolved r) in
     trace load st =
       [StoreSelect code;
        Toast "Room not found"
          "This room doesn't exist or you don't have access to it." true;
        Navigate "/dashboard"]
     /\ loading (exec load st) = false
     /\ content (exec load st) = content st
     /\ lastAppliedAtRef (exec load st) = lastAppliedAtRef st)
  /\ (forall u code reply st,
     loading (exec (loadRoom (Some u) code true reply) st) = false
     /\ outcome (loadRoom (Some u) code true reply) st = Done tt)
  /\ (forall u code reply,
     truthy_str code = true ->
     roomEffect (Some u) (Some code) reply = loadRoom (Some u) code true reply).
Proof.
  split; [|split].
  - intros u code r st Hnf load. subst load. unfold trace, exec.
    rewrite loadRoom_not_found_run by assumption. simpl. repeat split.
  - intros u code reply st. apply loadRoom_settles.
  - intros u code reply Hcode. unfold roomEffect. rewrite Hcode. reflexivity.
Qed.

(** ** Room codes *)

Lemma char_code_range (c : ascii) : 0 <= char_code c < 256.
Proof.
  unfold char_code. pose proof (N_ascii_bounded c). lia.
Qed.

Lemma char_code_inj (c c' : ascii) : char_code c = char_code c' -> c = c'.
Proof.
  unfold char_code. intros H.
  rewrite <- (ascii_N_embedding c), <- (ascii_N_embedding c').
  f_equal. lia.
Qed.

Lemma upper_char_lower (c : ascii) :
  is_lower c = true -> char_code (upper_char c) = char_code c - 32.
Proof.
  intros H. unfold upper_char. rewrite H.
  unfold is_lower in H. apply andb_prop in H as [H1 H2].
  unfold char_code at 1. rewrite N_ascii_embedding.
  - rewrite Z2N.id; lia.
  - pose proof (char_code_range c). lia.
Qed.

Lemma upper_char_other (c : ascii) : is_lower c = false -> upper_char c = c.
Proof. intros H. unfold upper_char. rewrite H. reflexivity. Qed.

Lemma same_letter_upper (c c' : ascii) :
  same_letter c c' -> upper_char c = upper_char c'.
Proof.
  assert (Hone : forall a b, is_lower a = true ->
            char_code b = char_code a - 32 -> upper_char a = upper_char b).
  { intros a b Ha Hb. apply char_code_inj.
    rewrite (upper_char_lower a Ha).
    rewrite (upper_char_other b); [lia|].
    unfold is_lower in *. apply andb_prop in Ha as [H1 H2].
    apply andb_false_iff. left. lia. }
  intros [-> | [[Hl Hc] | [Hl Hc]]].
  - reflexivity.
  - apply Hone; assumption.
  - symmetry. apply Hone; assumption.
Qed.

(** A printable ASCII character is no part of any white space. *)
Lemma ws_step_printable (st : ws_state) (c : ascii) :
  33 <= char_code c < 128 -> ws_step st c = None.
Proof.
  intros Hc. unfold ws_step, is_space. cbv zeta.
  destruct st;
    repeat match goal with
           | |- context [?x =? ?y] =>
               destruct (Z.eqb_spec x y); [exfalso; lia|]
           | |- context [?x <=? ?y] =>
               destruct (Z.leb_spec x y); [exfalso; lia|]
           end;
    reflexivity.
Qed.

Lemma same_letter_cases (c c' : ascii) :
  same_letter c c' ->
  c = c' \/ (33 <= char_code c < 128 /\ 33 <= char_code c' < 128).
Proof.
  unfold is_lower.
  intros [-> | [[Hl Hc] | [Hl Hc]]]; [left; reflexivity | right | right];
    apply andb_prop in Hl as [H1 H2]; lia.
Qed.

Lemma same_letter_ws_step (st : ws_state) (c c' : ascii) :
  same_letter c c' -> ws_step st c = ws_step st c'.
Proof.
  intros H. destruct (same_letter_cases c c' H) as [-> | [Hc Hc']];
    [reflexivity|].
  rewrite !ws_step_printable by assumption. reflexivity.
Qed.

Lemma eq_ignore_case_blank (s s' : string) :
  eq_ignore_case s s' -> forall st, blank_from st s = blank_from st s'.
Proof.
  revert s'. induction s as [|c s IH]; intros [|c' s']; simpl; try tauto.
  intros [Hc Hs] st. rewrite (same_letter_ws_step st c c' Hc).
  destruct (ws_step st c'); [apply IH; exact Hs | reflexivity].
Qed.

Lemma eq_ignore_case_upper_text (upper_wide : string -> string) (s s' : string) :
  eq_ignore_case s s' ->
  forall run, upper_text upper_wide s run = upper_text upper_wide s' run.
Proof.
  revert s'. induction s as [|c s IH]; intros [|c' s']; simpl; try tauto.
  intros [Hc Hs] run.
  destruct (same_letter_cases c c' Hc) as [-> | [Ha Ha']].
  - destruct (is_ascii_char c'); rewrite (IH s' Hs); reflexivity.
  - unfold is_ascii_char.
    destruct (Z.ltb_spec (char_code c) 128); [|lia].
    destruct (Z.ltb_spec (char_code c') 128); [|lia].
    rewrite (same_letter_upper c c' Hc), (IH s' Hs). reflexivity.
Qed.

(** On ASCII text the method is the ASCII one, whatever the table. *)
Lemma toUpperCaseText_ascii (upper_wide : string -> string) (s : string) :
  is_ascii s = true -> toUpperCaseText upper_wide s = toUpperCase s.
Proof.
  unfold toUpperCaseText, toUpperCase, is_ascii.
  induction s as [|c s IH]; [reflexivity|]. simpl.
  intros H. apply andb_prop in H as [Hc Hs]. rewrite Hc, (IH Hs). reflexivity.
Qed.

Lemma trim_end_empty (s : string) : String.eqb (trim_end s) "" = blank s.
Proof.
  destruct s as [|c r]; [reflexivity|]. cbn [trim_end].
  destruct (blank (String c r)); reflexivity.
Qed.

Lemma skip_white_blank (s : string) :
  forall st fallback,
    blank fallback = blank_from st s ->
    blank (skip_white st s fallback) = blank_from st s.
Proof.
  induction s as [|c r IH]; intros st fallback Hfb.
  - destruct st; first [reflexivity | exact Hfb].
  - cbn [skip_white blank_from] in *.
    destruct (ws_step st c) as [st'|]; [|exact Hfb].
    destruct st'; first [apply IH; reflexivity | apply IH; exact Hfb].
Qed.

(** A text trims to the empty string exactly when it is blank. *)
Lemma trim_truthy (s : string) : truthy_str (trim s) = negb (blank s).
Proof.
  unfold truthy_str, trim. rewrite trim_end_empty. f_equal.
  unfold trim_start. apply skip_white_blank. reflexivity.
Qed.

Lemma string_map_length (f : ascii -> ascii) (s : string) :
  String.length (string_map f s) = String.length s.
Proof. induction s as [|c s IH]; simpl; congruence. Qed.

Lemma substring_length_le (n m : nat) (s : string) :
  (String.length (String.substring n m s) <= m)%nat.
Proof.
  revert n m. induction s as [|c s IH]; intros [|n] [|m]; simpl; try lia.
  - specialize (IH 0%nat m). lia.
  - apply (IH n 0%nat).
  - apply (IH n (S m)).
Qed.

Lemma substring_forallb (p : ascii -> bool) (n m : nat) (s : string) :
  string_forallb p s = true -> string_forallb p (String.substring n m s) = true.
Proof.
  revert n m. induction s as [|c s IH]; intros [|n] [|m]; simpl; try reflexivity.
  - intros H. apply andb_prop in H as [Hc Hs]. rewrite Hc. simpl.
    apply IH. exact Hs.
  - intros H. apply andb_prop in H as [Hc Hs]. apply IH. exact Hs.
  - intros H. apply andb_prop in H as [Hc Hs]. apply IH. exact Hs.
Qed.

Lemma upper_char_base36 (c : ascii) :
  is_base36_lower c = true -> is_base36_upper (upper_char c) = true.
Proof.
  unfold is_base36_lower, is_base36_upper. intros H.
  destruct (is_lower c) eqn:Hl.
  - apply orb_true_iff. right. unfold is_upper.
    rewrite (upper_char_lower c Hl).
    unfold is_lower in Hl. apply andb_prop in Hl as [H1 H2].
    apply andb_true_iff. split; lia.
  - rewrite (upper_char_other c Hl).
    rewrite orb_false_r in H. rewrite H. reflexivity.
Qed.

Lemma toUpperCase_base36 (s : string) :
  string_forallb is_base36_lower s = true ->
  string_forallb is_base36_upper (toUpperCase s) = true.
Proof.
  induction s as [|c s IH]; [reflexivity|]. simpl.
  intros H. apply andb_prop in H as [Hc Hs].
  rewrite (upper_char_base36 c Hc). simpl. apply IH. exact Hs.
Qed.

(** C10.  Joining with a non-blank code navigates to the room of the
    upper-cased code, for every entry and whatever the upper-case forms of
    non-ASCII text are, and two entries that differ only in the case of
    their letters lead to the same place.  A generated room code has at
    most six characters, and they are digits and upper-case letters
    whenever [Math.random().toString(36)] has the shape of a radix-36
    fraction. *)
Theorem room_codes_upper_case :
  (forall upper_wide joinCode,
     truthy_str (trim joinCode) = true ->
     handleJoinRoom upper_wide joinCode =
       [Navigate ("/room/" ++ toUpperCaseText upper_wide joinCode)])
  /\ (forall upper_wide joinCode joinCode',
     eq_ignore_case joinCode joinCode' ->
     handleJoinRoom upper_wide joinCode = handleJoinRoom upper_wide joinCode')
  /\ (forall random36,
     (String.length (generateRoomCode random36) <= 6)%nat)
  /\ (forall random36,
     radix36_fraction random36 = true ->
     string_forallb is_base36_upper (generateRoomCode random36) = true).
Proof.
  split; [|split; [|split]].
  - intros U joinCode H. unfold handleJoinRoom. rewrite H. reflexivity.
  - intros U s s' H. unfold handleJoinRoom, toUpperCaseText.
    rewrite !trim_truthy. unfold blank.
    rewrite (eq_ignore_case_blank s s' H W0),
      (eq_ignore_case_upper_text U s s' H ""). reflexivity.
  - intros r. unfold generateRoomCode, toUpperCase, js_substring.
    rewrite string_map_length. apply (substring_length_le 2 6).
  - intros r Hr. unfold generateRoomCode. apply toUpperCase_base36.
    destruct r as [|c0 r']; [discriminate|].
    destruct c0 as [[] [] [] [] [] [] [] []]; simpl in Hr; try discriminate.
    destruct r' as [|c1 d]; [reflexivity|].
    destruct c1 as [[] [] [] [] [] [] [] []]; simpl in Hr; try discriminate.
    change (string_forallb is_base36_lower (String.substring 0 6 d) = true).
    apply substring_forallb. exact Hr.
Qed.

(** * The theorems at concrete inputs *)

Example Date_parse_iso_jan_1 :
  Date_parse_iso "2024-01-01T00:00:00Z" = Some 1704067200000.
Proof. reflexivity. Qed.

Example Date_parse_iso_jan_2 :
  Date_parse_iso "2024-01-02T00:00:00Z" = Some 1704153600000.
Proof. reflexivity. Qed.

Example Date_parse_iso_millis :
  Date_parse_iso "1970-01-01T00:00:01.500Z" = Some 1500.
Proof. reflexivity. Qed.

Example Date_parse_iso_invalid :
  Date_parse_iso "2024-02-30T00:00:00Z" = None /\ Date_parse_iso "" = None
  /\ Date_parse_iso "yesterday" = None.
Proof. repeat split. Qed.

Example generateRoomCode_sample : generateRoomCode "0.4fzyo82mvyr" = "4FZYO8".
Proof. reflexivity. Qed.

Example generateRoomCode_short :
  generateRoomCode "0.i" = "I" /\ generateRoomCode "0" = "".
Proof. split; reflexivity. Qed.

Example handleJoinRoom_sample :
  handleJoinRoom sample_upper_wide "abc123" = [Navigate "/room/ABC123"]
  /\ handleJoinRoom sample_upper_wide " abc123 " = [Navigate "/room/ ABC123 "]
  /\ handleJoinRoom sample_upper_wide "   " = [].
Proof. repeat split. Qed.

(** A no-break space, a line separator and a tab are blank; the sharp s is
    upper-cased to two letters. *)
Example handleJoinRoom_wide_sample :
  handleJoinRoom sample_upper_wide
    (no_break_space ++ line_separator ++ String "009" "") = []
  /\ trim (no_break_space ++ "ab c" ++ line_separator) = "ab c"
  /\ handleJoinRoom sample_upper_wide ("stra" ++ sharp_s ++ "e")
     = [Navigate "/room/STRASSE"].
Proof. repeat split. Qed.

Lemma latest_remote_event_wins_witness :
  let st := alice_editor "draft" (JStr (jan "01")) in
  let st' := deliver Date_parse_iso
               [bob_event "third" "04"; bob_event "first" "02";
                bob_event "second" "03"] st in
  content st' = "third"
  /\ lastAppliedAtRef st' = JStr (jan "04")
  /\ roomData st' = Some (bob_event "third" "04").
Proof.
  apply (latest_remote_event_wins Date_parse_iso
           (alice_editor "draft" (JStr (jan "01")))
           [bob_event "first" "02"; bob_event "second" "03";
            bob_event "third" "04"]
           [bob_event "third" "04"; bob_event "first" "02";
            bob_event "second" "03"]
           (bob_event "third" "04")).
  - etransitivity; [apply Permutation_cons; [reflexivity | apply perm_swap]|].
    apply perm_swap.
  - intros e He. each_member He; vm_compute; reflexivity.
  - intros e He. each_member He; vm_compute; eexists; reflexivity.
  - apply (bool_decide_unpack _). vm_compute. exact I.
  - apply (bool_decide_unpack _). vm_compute. exact I.
  - intros e t tmax He Ht Hm. vm_compute in Hm. injection Hm as <-.
    each_member He; vm_compute in Ht; injection Ht as <-; lia.
  - vm_compute. reflexivity.
Defined.

Lemma self_update_keeps_content_witness :
  let st := alice_editor "my draft" (JStr (jan "01")) in
  let next := room_row "ABC123" "saved text" (JStr "alice@example.com")
                (JStr (jan "05")) in
  let st' := exec (onRemoteUpdate Date_parse_iso (Some next)) st in
  isSelfUpdate (myEmailRef st) next = true
  /\ content st' = "my draft"
  /\ lastAppliedAtRef st' = JStr (jan "05").
Proof.
  split; [reflexivity|].
  destruct (self_update_keeps_content Date_parse_iso
              (alice_editor "my draft" (JStr (jan "01")))
              (room_row "ABC123" "saved text" (JStr "alice@example.com")
                 (JStr (jan "05"))))
    as (Hc & _ & Hw & _); [reflexivity|].
  split; [exact Hc | rewrite Hw; reflexivity].
Defined.

Lemma isNewer_policy_witness :
  isNewer Date_parse_iso (Some JNull) None = false
  /\ isNewer Date_parse_iso (Some (JStr (jan "01"))) (Some JNull) = true
  /\ isNewer Date_parse_iso None (Some (JStr (jan "01"))) = false
  /\ isNewer Date_parse_iso (Some (JStr (jan "02"))) (Some (JStr (jan "01"))) = true
  /\ isNewer Date_parse_iso (Some (JStr "soon")) (Some (JStr (jan "01"))) = false
  /\ content (exec (onRemoteUpdate Date_parse_iso (Some (bob_event "new" "01")))
                (alice_editor "old" JNull)) = "new"
  /\ exec (onRemoteUpdate Date_parse_iso (Some (bob_event "late" "01")))
        (alice_editor "current" (JStr (jan "02")))
      = alice_editor "current" (JStr (jan "02")).
Proof.
  destruct (isNewer_policy Date_parse_iso)
    as (H1 & H2 & H3 & H4 & H5 & H6 & H7).
  split; [apply H1; reflexivity|].
  split; [apply H2; reflexivity|].
  split; [apply H3; reflexivity|].
  split; [apply (H4 _ _ 1704153600000 1704067200000); reflexivity|].
  split; [apply (H5 (Some (JStr "soon")) (Some (JStr (jan "01"))));
          [left; reflexivity | reflexivity | reflexivity]|].
  split.
  - destruct (H6 (alice_editor "old" JNull) (bob_event "new" "01"))
      as (_ & _ & Happly); [reflexivity | reflexivity|].
    destruct Happly as [Hc _]; [reflexivity|]. exact Hc.
  - destruct (H7 eq_refl eq_refl (alice_editor "current" (JStr (jan "02")))
                (bob_event "late" "01"))
      as (_ & _ & _ & Hsame); [reflexivity | reflexivity|].
    apply Hsame. reflexivity.
Defined.

Lemma isSelfUpdate_iff_witness :
  isSelfUpdate (JStr "alice@example.com")
    (room_row "ABC123" "text" (JStr "alice@example.com") (JStr (jan "01")))
  = true.
Proof.
  apply (isSelfUpdate_iff (JStr "alice@example.com")
           (room_row "ABC123" "text" (JStr "alice@example.com")
              (JStr (jan "01")))).
  exists "alice@example.com". repeat split. discriminate.
Defined.

(** C5, as stated, fails where both identities are absent: the event's
    [editor_email] is [null] and so is the local email (an account without
    an address), the two are equal, and the callback does not classify the
    event as a self-update; it applies it as a remote one. *)
Lemma isSelfUpdate_absent_identities :
  let next := room_row "ABC123" "theirs" JNull (JStr (jan "02")) in
  let st := mkState None "mine" false false JNull (email_of (Some anon)) in
  next !! "editor_email" = Some (myEmailRef st)
  /\ isSelfUpdate (myEmailRef st) next = false
  /\ content (exec (onRemoteUpdate Date_parse_iso (Some next)) st) = "theirs"
  /\ ~ (forall (myEmail : jsval) (e : Row),
          isSelfUpdate myEmail e = true <-> e !! "editor_email" = Some myEmail).
Proof.
  repeat split.
  intros H.
  pose proof (proj2 (H JNull (room_row "ABC123" "theirs" JNull
                                (JStr (jan "02")))) eq_refl) as Hself.
  discriminate Hself.
Qed.

Lemma onRemoteUpdate_idempotent_witness :
  let st := alice_editor "draft" (JStr (jan "01")) in
  let st1 := exec (onRemoteUpdate Date_parse_iso (Some (bob_event "new" "02"))) st in
  content st1 = "new"
  /\ exec (onRemoteUpdate Date_parse_iso (Some (bob_event "new" "02"))) st1 = st1
  /\ exec (onRemoteUpdate Date_parse_iso (Some (bob_event "old" "01"))) st1 = st1
  /\ trace (onRemoteUpdate Date_parse_iso (Some (bob_event "old" "01"))) st1 = [].
Proof.
  destruct (onRemoteUpdate_idempotent Date_parse_iso) as (Hidem & Hstale & Hquiet).
  split; [reflexivity|].
  split; [apply (Hidem (alice_editor "draft" (JStr (jan "01")))
                   (Some (bob_event "new" "02")))|].
  split.
  - apply Hstale; reflexivity.
  - apply Hquiet.
Defined.

Lemma save_then_echo_witness :
  let st := alice_editor "hello" (JStr (jan "01")) in
  let nowIso := "2024-01-05T10:00:00.000Z" in
  let st1 := exec (handleSave (Some alice) (Some "ABC123") nowIso ok_reply) st in
  let echo := room_row "ABC123" "hello" (JStr "alice@example.com") (JStr nowIso) in
  lastAppliedAtRef st1 = JStr nowIso
  /\ content (exec (onRemoteUpdate Date_parse_iso (Some echo)) st1) = "hello".
Proof.
  destruct (save_then_echo Date_parse_iso (alice_editor "hello" (JStr (jan "01")))
              alice "ABC123" "2024-01-05T10:00:00.000Z" (mkReply None None))
    as (Hw & _ & _ & Hecho); [reflexivity | reflexivity|].
  split; [exact Hw|].
  apply (Hecho (room_row "ABC123" "hello" (JStr "alice@example.com")
                  (JStr "2024-01-05T10:00:00.000Z"))).
  apply (bool_decide_unpack _). vm_compute. exact I.
Defined.

Lemma save_failure_preserves_state_witness :
  let st := alice_editor "unsaved" (JStr (jan "01")) in
  let reply := Resolved (mkReply None
                 (Some (mkStoreError (Some "42501") "permission denied"))) in
  let save := handleSave (Some alice) (Some "ABC123") (jan "03") reply in
  exec save st = st
  /\ trace save st =
       [StoreUpdate "ABC123" (save_fields "unsaved" alice (jan "03"));
        ConsoleError "Error saving room:";
        Toast "Save failed" "There was an error saving your text" true].
Proof.
  destruct (save_failure_preserves_state
              (alice_editor "unsaved" (JStr (jan "01"))) alice "ABC123" (jan "03")
              (Resolved (mkReply None
                 (Some (mkStoreError (Some "42501") "permission denied")))))
    as (_ & _ & _ & _ & _ & _ & Hsame & Htrace & _);
    [reflexivity | discriminate|].
  split; [apply Hsame; reflexivity | exact Htrace].
Defined.

Lemma load_not_found_redirects_witness :
  let load := loadRoom (Some alice) "ABC123" true (Resolved no_rows_reply) in
  trace load initial_state =
    [StoreSelect "ABC123";
     Toast "Room not found"
       "This room doesn't exist or you don't have access to it." true;
     Navigate "/dashboard"]
  /\ loading (exec load initial_state) = false
  /\ roomEffect (Some alice) (Some "ABC123") (Resolved no_rows_reply) = load.
Proof.
  destruct load_not_found_redirects as (Hnf & _ & Heff).
  destruct (Hnf alice "ABC123" no_rows_reply initial_state)
    as (Htrace & Hload & _); [split; reflexivity|].
  split; [exact Htrace|]. split; [exact Hload|].
  apply Heff. reflexivity.
Defined.

Lemma room_codes_upper_case_witness :
  handleJoinRoom sample_upper_wide "abc123" = [Navigate "/room/ABC123"]
  /\ handleJoinRoom sample_upper_wide "aBc123"
     = handleJoinRoom sample_upper_wide "AbC123"
  /\ string_forallb is_base36_upper (generateRoomCode "0.4fzyo82mvyr") = true.
Proof.
  destruct room_codes_upper_case as (Hjoin & Hcase & _ & Hshape).
  split; [apply (Hjoin sample_upper_wide "abc123"); reflexivity|].
  split; [|apply Hshape; reflexivity].
  apply Hcase. simpl. unfold same_letter.
  repeat split;
    first [ left; reflexivity
          | right; left; split; reflexivity
          | right; right; split; reflexivity ].
Defined.

(** C4.  The code at the failing inputs.  A realtime event of January 2
    is applied before the reply to the initial load is handled; the reply
    brings the row as it was on January 1, and [loadRoom] moves the
    watermark back to January 1 and shows the older content.  And with
    Bob's event of January 3 applied, a save stamped January 2 by Alice's
    own clock moves the watermark back to January 2, after which a late
    payload of January 2, noon, older than what was applied, replaces the
    content buffer. *)
Lemma watermark_can_regress :
  let st0 := mkState None "" false true JNull (JStr "alice@example.com") in
  let st1 := step Date_parse_iso st0 (OpRemote (Some (bob_event "v2" "02"))) in
  let st2 := step Date_parse_iso st1
               (OpLoad (Some alice) "ABC123" true
                  (found_reply (bob_event "v1" "01"))) in
  let st3 := alice_editor "v3" (JStr (jan "03")) in
  let st4 := step Date_parse_iso st3
               (OpSave (Some alice) (Some "ABC123") "2024-01-02T00:00:00.000Z"
                  ok_reply) in
  let late := room_row "ABC123" "stale" (JStr "bob@example.com")
                (JStr "2024-01-02T12:00:00Z") in
  let st5 := step Date_parse_iso st4 (OpRemote (Some late)) in
  (content st1 = "v2" /\ lastAppliedAtRef st1 = JStr (jan "02"))
  /\ (content st2 = "v1" /\ lastAppliedAtRef st2 = JStr (jan "01"))
  /\ isNewer Date_parse_iso (Some (lastAppliedAtRef st1))
       (Some (lastAppliedAtRef st2)) = true
  /\ lastAppliedAtRef st4 = JStr "2024-01-02T00:00:00.000Z"
  /\ isNewer Date_parse_iso (Some (lastAppliedAtRef st3))
       (Some (lastAppliedAtRef st4)) = true
  /\ isNewer Date_parse_iso (Some (lastAppliedAtRef st3)) (late !! "updated_at")
       = true
  /\ content st5 = "stale"
  /\ ~ (forall ops s,
          isNewer Date_parse_iso (Some (lastAppliedAtRef s))
            (Some (lastAppliedAtRef (run Date_parse_iso ops s))) = false).
Proof.
  split; [split; reflexivity|]. split; [split; reflexivity|].
  do 5 (split; [reflexivity|]).
  intros H.
  specialize (H [OpLoad (Some alice) "ABC123" true
                   (found_reply (bob_event "v1" "01"))]
                (mkState (Some (bob_event "v2" "02")) "v2" false true
                   (JStr (jan "02")) (JStr "alice@example.com"))).
  discriminate H.
Qed.

(** * Further properties of the code *)

(** ** The recency comparison as an order *)

(** X1.  [isNewer] is a strict partial order on timestamps, for every
    [Date.parse]: nothing is newer than itself, two timestamps are never
    each newer than the other, and newer-than is transitive. *)
Theorem isNewer_strict_order (Date_parse : string -> option Z) :
  (forall a, isNewer Date_parse a a = false)
  /\ (forall a b, isNewer Date_parse a b = true -> isNewer Date_parse b a = false)
  /\ (forall a b c, isNewer Date_parse a b = true -> isNewer Date_parse b c = true ->
        isNewer Date_parse a c = true).
Proof.
  split; [|split].
  - apply isNewer_irrefl.
  - apply isNewer_asym.
  - apply isNewer_trans.
Qed.

Lemma isNewer_unparseable_r (Date_parse : string -> option Z) (a : jsopt)
    (s : string) :
  s <> "" -> Date_parse s = None ->
  isNewer Date_parse a (Some (JStr s)) = false.
Proof.
  intros Hs Hp. destruct (truthy a) eqn:Ha.
  - rewrite isNewer_both by (try assumption; apply truthy_JStr; assumption).
    simpl. rewrite Hp. destruct (Date_parse (ToString a)); reflexivity.
  - apply isNewer_falsy_l. assumption.
Qed.

Lemma run_remote_cons (Date_parse : string -> option Z) (p : option Row)
    (ps : list (option Row)) (st : State) :
  run Date_parse (OpRemote <$> p :: ps) st =
  run Date_parse (OpRemote <$> ps) (exec (onRemoteUpdate Date_parse p) st).
Proof. reflexivity. Qed.

(** X2.  A watermark that is a non-empty string [Date.parse] rejects blocks
    the feed: whatever is delivered afterwards, from anyone, content buffer
    and watermark stay as they are.  Such a watermark arises when an event
    of someone else with such a timestamp arrives while the watermark is
    [null]: the event is applied and is the last one to be. *)
Theorem unparseable_watermark_blocks_updates (Date_parse : string -> option Z) :
  (forall payloads st s,
     lastAppliedAtRef st = JStr s -> s <> "" -> Date_parse s = None ->
     let st' := run Date_parse (OpRemote <$> payloads) st in
     content st' = content st /\ lastAppliedAtRef st' = JStr s)
  /\ (forall payloads st next s,
     lastAppliedAtRef st = JNull ->
     isSelfUpdate (myEmailRef st) next = false ->
     next !! "updated_at" = Some (JStr s) -> s <> "" -> Date_parse s = None ->
     let st' := run Date_parse (OpRemote <$> Some next :: payloads) st in
     content st' = or_empty (next !! "content")
     /\ lastAppliedAtRef st' = JStr s).
Proof.
  assert (Hblock : forall payloads st s,
     lastAppliedAtRef st = JStr s -> s <> "" -> Date_parse s = None ->
     content (run Date_parse (OpRemote <$> payloads) st) = content st
     /\ lastAppliedAtRef (run Date_parse (OpRemote <$> payloads) st) = JStr s).
  { induction payloads as [|p ps IH]; intros st s Hwm Hs Hp; [split; [reflexivity | exact Hwm]|].
    rewrite run_remote_cons.
    assert (E : content (exec (onRemoteUpdate Date_parse p) st) = content st
                /\ lastAppliedAtRef (exec (onRemoteUpdate Date_parse p) st) = JStr s).
    { destruct p as [next|]; [|split; [reflexivity | exact Hwm]].
      unfold exec. rewrite onRemoteUpdate_run, Hwm.
      rewrite (isNewer_unparseable_r Date_parse _ s Hs Hp). simpl.
      destruct (isSelfUpdate (myEmailRef st) next); simpl; split;
        try reflexivity; exact Hwm. }
    destruct E as [Ec Ew].
    destruct (IH _ s Ew Hs Hp) as [Hc' Hw']. split; congruence. }
  split; [exact Hblock|].
  intros payloads st next s Hwm Hself Hts Hs Hp st'. subst st'.
  rewrite run_remote_cons.
  assert (E : exec (onRemoteUpdate Date_parse (Some next)) st =
              mkState (Some next) (or_empty (next !! "content")) (isSaving st)
                (loading st) (JStr s) (myEmailRef st)).
  { unfold exec. rewrite onRemoteUpdate_run, Hself, Hwm, Hts.
    rewrite isNewer_falsy_r by (try reflexivity; apply truthy_JStr; assumption).
    reflexivity. }
  rewrite E.
  destruct (Hblock payloads
              (mkState (Some next) (or_empty (next !! "content")) (isSaving st)
                 (loading st) (JStr s) (myEmailRef st)) s eq_refl Hs Hp)
    as [Hc Hw].
  split; assumption.
Qed.

(** X3.  Deliveries never touch the loading flag, the saving flag or the
    stored email; so while the initial load is pending the loading screen
    stays, whatever the feed delivers. *)
Theorem deliveries_keep_flags (Date_parse : string -> option Z)
    (payloads : list (option Row)) (st : State) :
  let st' := run Date_parse (OpRemote <$> payloads) st in
  loading st' = loading st
  /\ isSaving st' = isSaving st
  /\ myEmailRef st' = myEmailRef st
  /\ (loading st = true -> showsLoading st' = true).
Proof.
  assert (H : loading (run Date_parse (OpRemote <$> payloads) st) = loading st
              /\ isSaving (run Date_parse (OpRemote <$> payloads) st) = isSaving st
              /\ myEmailRef (run Date_parse (OpRemote <$> payloads) st) = myEmailRef st).
  { revert st. induction payloads as [|p ps IH]; intros st; [repeat split|].
    rewrite run_remote_cons.
    destruct (IH (exec (onRemoteUpdate Date_parse p) st)) as (Hl & Hs & Hm).
    rewrite Hl, Hs, Hm. clear IH Hl Hs Hm.
    destruct p as [next|]; [|repeat split].
    unfold exec. rewrite onRemoteUpdate_run. simpl.
    destruct (isSelfUpdate (myEmailRef st) next); [repeat split|].
    destruct (isNewer Date_parse _ _); repeat split. }
  cbv zeta. destruct H as (Hl & Hs & Hm).
  repeat split; try assumption.
  intros Hload. unfold showsLoading. rewrite Hl, Hload. reflexivity.
Qed.

(** X23.  Deliveries alone never move the watermark back: after any
    sequence of them it is where it started or strictly newer, and when it
    started as a timestamp that parses it ends as one whose time value is
    not smaller.  A single delivery keeps the content buffer or replaces
    it by the content of an event of someone else that is strictly newer
    than the watermark, and whose timestamp becomes the watermark. *)
Theorem deliveries_never_regress (Date_parse : string -> option Z) :
  (forall payloads st,
     no_regress Date_parse (lastAppliedAtRef st)
       (lastAppliedAtRef (run Date_parse (OpRemote <$> payloads) st)))
  /\ (forall payloads st s t,
     lastAppliedAtRef st = JStr s -> s <> "" -> Date_parse s = Some t ->
     exists s' t',
       lastAppliedAtRef (run Date_parse (OpRemote <$> payloads) st) = JStr s'
       /\ s' <> "" /\ Date_parse s' = Some t' /\ t <= t')
  /\ (forall st payload,
     let st' := exec (onRemoteUpdate Date_parse payload) st in
     content st' = content st
     \/ exists next, payload = Some next
          /\ isSelfUpdate (myEmailRef st) next = false
          /\ isNewer Date_parse (next !! "updated_at")
               (Some (lastAppliedAtRef st)) = true
          /\ roomData st' = Some next
          /\ content st' = or_empty (next !! "content")
          /\ lastAppliedAtRef st' = or_null (next !! "updated_at")).
Proof.
  assert (Hrun : forall payloads st,
     no_regress Date_parse (lastAppliedAtRef st)
       (lastAppliedAtRef (run Date_parse (OpRemote <$> payloads) st))).
  { induction payloads as [|p ps IH]; intros st; [apply no_regress_refl|].
    rewrite run_remote_cons.
    eapply no_regress_trans; [|apply IH].
    apply (remote_step_guarded Date_parse st p). }
  split; [exact Hrun|]. split.
  - intros payloads st s t Hwm Hs Hp.
    destruct (Hrun payloads st) as [Hsame | Hnewer].
    + exists s, t. rewrite Hsame. repeat split; try assumption. lia.
    + rewrite Hwm in Hnewer.
      pose proof (isNewer_truthy_l _ _ _ Hnewer) as Ht.
      apply truthy_cases in Ht as (s' & [= Hs'] & Hne).
      rewrite Hs' in Hnewer |- *.
      rewrite isNewer_both in Hnewer by (apply truthy_JStr; assumption).
      apply num_gt_spec in Hnewer as (t' & t0 & Hp' & Hp0 & Hlt).
      simpl in Hp', Hp0. rewrite Hp in Hp0. injection Hp0 as <-.
      exists s', t'. repeat split; try assumption. lia.
  - intros st payload.
    apply (remote_step_guarded Date_parse st payload).
Qed.

(** ** Saving and loading, all outcomes *)

(** X4.  [handleSave] never throws and never changes content buffer, room
    data, loading flag or stored email.  Without a user or a room code it
    does nothing at all.  Otherwise it sends exactly one update, carrying
    the content buffer, the user's email and the clock reading, ends with
    the saving flag down, and shows one toast: "Saved successfully" with
    the watermark at the clock reading, or "Save failed" with the watermark
    untouched. *)
Theorem handleSave_total (user : option User) (roomCode : option string)
    (nowIso : string) (reply : Awaited StoreReply) (st : State) :
  let save := handleSave user roomCode nowIso reply in
  let st' := exec save st in
  outcome save st = Done tt
  /\ content st' = content st
  /\ roomData st' = roomData st
  /\ loading st' = loading st
  /\ myEmailRef st' = myEmailRef st
  /\ (user = None \/ roomCode = None \/ roomCode = Some "" ->
      save st = (Done tt, st, []))
  /\ (forall u code, user = Some u -> roomCode = Some code -> code <> "" ->
      isSaving st' = false
      /\ ((lastAppliedAtRef st' = JStr nowIso
           /\ trace save st =
                [StoreUpdate code (save_fields (content st) u nowIso);
                 Toast "Saved successfully"
                   "Your text has been saved to the room" false])
          \/ (lastAppliedAtRef st' = lastAppliedAtRef st
              /\ trace save st =
                   [StoreUpdate code (save_fields (content st) u nowIso);
                    ConsoleError "Error saving room:";
                    Toast "Save failed" "There was an error saving your text"
                      true]))).
Proof.
  cbv zeta. unfold exec, outcome, trace, handleSave.
  destruct user as [u|].
  2:{ do 5 (split; [reflexivity|]). split; [reflexivity|]. intros ? ? [=]. }
  destruct roomCode as [code|].
  2:{ do 5 (split; [reflexivity|]). split; [reflexivity|]. intros ? ? _ [=]. }
  unfold truthy_str. destruct (String.eqb_spec code "") as [->|Hne]; simpl.
  { do 5 (split; [reflexivity|]). split; [reflexivity|].
    intros ? ? _ [= <-] Hc. congruence. }
  assert (Hguard : Some u = None \/ Some code = None \/ Some code = Some "" ->
                   False).
  { intros [[=] | [[=] | [= ->]]]. congruence. }
  unfold mbind, M_bind, try_catch_finally. simpl.
  destruct reply as [r|e]; simpl; [destruct (error r); simpl|];
    do 5 (split; [reflexivity|]);
    (split; [intros Hg; destruct (Hguard Hg)|]);
    intros ? ? [= <-] [= <-] _; (split; [reflexivity|]);
    first [left; split; reflexivity | right; split; reflexivity].
Qed.

(** X5.  A load that finds the room (a row, and no error other than
    PGRST116) takes content buffer, room data and watermark from the row
    ([content ?? ""], [updated_at ?? null]), clears the loading flag, shows
    no toast and does not navigate: the editor replaces the loading
    screen. *)
Theorem load_found_shows_room (u : User) (code : string) (r : StoreReply)
    (room : Row) (st : State) :
  data r = Some room ->
  (forall e, error r = Some e -> err_code e = Some "PGRST116") ->
  let load := loadRoom (Some u) code true (Resolved r) in
  load st =
    (Done tt,
     mkState (Some room) (or_empty (room !! "content")) (isSaving st) false
       (or_null (room !! "updated_at")) (myEmailRef st),
     [StoreSelect code])
  /\ showsLoading (exec load st) = false.
Proof.
  intros Hdata Herr load.
  assert (E : load st =
    (Done tt,
     mkState (Some room) (or_empty (room !! "content")) (isSaving st) false
       (or_null (room !! "updated_at")) (myEmailRef st),
     [StoreSelect code])).
  { subst load. unfold loadRoom, mbind, M_bind, try_catch_finally. simpl.
    destruct (error r) as [e|]; simpl.
    - unfold is_not_found_code.
      rewrite bool_decide_eq_true_2 by (apply Herr; reflexivity).
      simpl. rewrite Hdata. reflexivity.
    - rewrite Hdata. reflexivity. }
  split; [exact E|]. unfold exec. rewrite E. reflexivity.
Qed.

(** X6.  A load that fails (the request rejects, or the reply carries an
    error other than PGRST116) logs, shows the toast "Failed to load room
    data." and navigates to the dashboard.  It applies nothing, not even a
    row that came with the error: content buffer, room data and watermark
    are unchanged, and only the loading flag is cleared. *)
Theorem load_failure_redirects (u : User) (code : string)
    (reply : Awaited StoreReply) (st : State) :
  (match reply with
   | Rejected _ => True
   | Resolved r => exists e, error r = Some e /\ err_code e <> Some "PGRST116"
   end) ->
  loadRoom (Some u) code true reply st =
    (Done tt,
     mkState (roomData st) (content st) (isSaving st) false
       (lastAppliedAtRef st) (myEmailRef st),
     [StoreSelect code;
      ConsoleError "Error loading room:";
      Toast "Error" "Failed to load room data." true;
      Navigate "/dashboard"]).
Proof.
  intros Hfail. unfold loadRoom, mbind, M_bind, try_catch_finally. simpl.
  destruct reply as [r|e]; simpl; [|reflexivity].
  destruct Hfail as (e & -> & Hcode). simpl.
  unfold is_not_found_code. rewrite bool_decide_eq_false_2 by exact Hcode.
  reflexivity.
Qed.

(** X7.  Without a user [loadRoom] does nothing, and without a user or a
    room code the mount effect does not start it: no request is made and
    the loading flag stays up.  A load called with [isMounted] false never
    changes React state (room data, content buffer, loading and saving
    flags), whatever the reply; it still sets the watermark when a row is
    found. *)
Theorem load_guards :
  (forall code isMounted reply st,
     loadRoom None code isMounted reply st = (Done tt, st, []))
  /\ (forall user roomCode reply st,
     user = None \/ roomCode = None \/ roomCode = Some "" ->
     roomEffect user roomCode reply st = (Done tt, st, []))
  /\ (forall u code reply st,
     let st' := exec (loadRoom (Some u) code false reply) st in
     roomData st' = roomData st
     /\ content st' = content st
     /\ loading st' = loading st
     /\ isSaving st' = isSaving st
     /\ myEmailRef st' = myEmailRef st)
  /\ (forall u code r room st,
     data r = Some room -> error r = None ->
     lastAppliedAtRef (exec (loadRoom (Some u) code false (Resolved r)) st)
       = or_null (room !! "updated_at")).
Proof.
  split; [|split; [|split]].
  - reflexivity.
  - intros user roomCode reply st Hg. unfold roomEffect.
    destruct roomCode as [code|]; [|reflexivity].
    destruct user as [u|]; [|reflexivity].
    destruct Hg as [[=] | [[=] | [= ->]]]. reflexivity.
  - intros u code reply st. cbv zeta.
    unfold exec, loadRoom, mbind, M_bind, try_catch_finally. simpl.
    destruct reply as [r|e]; simpl; [|repeat split].
    destruct (error r) as [e|]; simpl.
    + destruct (is_not_found_code e); simpl; [|repeat split].
      destruct (data r); repeat split.
    + destruct (data r); repeat split.
  - intros u code r room st Hdata Herr.
    unfold exec, loadRoom, mbind, M_bind, try_catch_finally. simpl.
    rewrite Herr. simpl. rewrite Hdata. reflexivity.
Qed.

(** ** The rest of the editor *)

(** X8.  Different room codes subscribe on different channels, and the
    channel of a room is never the fallback channel used without a code. *)
Theorem channelName_injective (c c' : string) :
  c <> "" -> c' <> "" ->
  (channelName (Some c) = channelName (Some c') -> c = c')
  /\ channelName (Some c) <> channelName None
  /\ channelName (Some "") = channelName None.
Proof.
  intros Hc Hc'. unfold channelName, truthy_str.
  destruct (String.eqb_spec c ""); [contradiction|].
  destruct (String.eqb_spec c' ""); [contradiction|]. simpl.
  split; [|split].
  - intros H. injection H as H'. exact H'.
  - intros H. injection H as H'. discriminate H'.
  - reflexivity.
Qed.

(** X9.  Copy and Share never throw and never change the editor's state,
    also when the clipboard refuses: they attempt exactly one clipboard
    write (of the content buffer, of the page address) and show the success
    toast when it resolves and the failure toast when it rejects. *)
Theorem clipboard_handlers_settle (href : string) (written : Awaited unit)
    (st : State) :
  handleCopy written st =
    (Done tt, st,
     [ClipboardWrite (content st);
      match written with
      | Resolved _ =>
          Ui (Toast "Copied to clipboard"
                "Text has been copied to your clipboard" false)
      | Rejected _ =>
          Ui (Toast "Copy failed" "Unable to copy text to clipboard" true)
      end])
  /\ handleShare href written st =
    (Done tt, st,
     [ClipboardWrite href;
      match written with
      | Resolved _ =>
          Ui (Toast "Room link copied"
                "Share this link to invite others to the room" false)
      | Rejected _ => Ui (Toast "Share failed" "Unable to copy room link" true)
      end]).
Proof.
  unfold handleCopy, handleShare, h_try_catch, mbind, H_bind.
  destruct written; split; reflexivity.
Qed.

(** X10.  Download saves exactly the content buffer and leaves the state
    alone.  The file is named after the room when its name is a non-empty
    string, and after the room code otherwise (no room data, no name, a
    [null] or empty name); the name always ends in ".txt". *)
Theorem handleDownload_names_file (code : string) (st : State) :
  (exists base,
     handleDownload (Some code) st =
       (Done tt, st,
        [DownloadFile (base ++ ".txt") (content st);
         Ui (Toast "Downloaded" "Text file has been downloaded" false)])
     /\ download_name (roomData st) (Some code) = base ++ ".txt"
     /\ (forall room name, roomData st = Some room ->
           room !! "name" = Some (JStr name) -> name <> "" -> base = name)
     /\ (roomData st = None -> base = code)
     /\ (forall room, roomData st = Some room ->
           truthy (room !! "name") = false -> base = code)).
Proof.
  unfold handleDownload, download_name, mbind, H_bind. simpl.
  eexists. split; [reflexivity|]. split; [reflexivity|]. split; [|split].
  - intros room name -> Hn Hne. rewrite Hn.
    rewrite truthy_JStr by assumption. reflexivity.
  - intros ->. reflexivity.
  - intros room -> Hf. rewrite Hf. reflexivity.
Qed.

(** ** The dashboard *)

Lemma substring_length (n m : nat) (s : string) :
  String.length (String.substring n m s) = Nat.min m (String.length s - n).
Proof.
  revert n m. induction s as [|c s IH]; intros [|n] [|m]; simpl;
    try reflexivity.
  - rewrite (IH 0%nat m), Nat.sub_0_r. reflexivity.
  - rewrite (IH n 0%nat). reflexivity.
  - rewrite (IH n (S m)). reflexivity.
Qed.

Lemma generateRoomCode_length_eq (random36 : string) :
  String.length (generateRoomCode random36)
    = Nat.min 6 (String.length random36 - 2).
Proof.
  unfold generateRoomCode, toUpperCase, js_substring.
  rewrite string_map_length. apply (substring_length 2 6).
Qed.

(** X11.  A generated room code has exactly as many characters as
    [Math.random().toString(36)] has after its first two, up to six; when
    that string has no more than two characters (["0"], for the random
    number 0) the code is empty. *)
Theorem generateRoomCode_length (random36 : string) :
  String.length (generateRoomCode random36)
    = Nat.min 6 (String.length random36 - 2)
  /\ ((String.length random36 <= 2)%nat -> generateRoomCode random36 = "").
Proof.
  pose proof (generateRoomCode_length_eq random36) as Hlen.
  split; [exact Hlen|].
  intros Hshort. destruct (generateRoomCode random36) as [|c s]; [reflexivity|].
  assert (E : (String.length random36 - 2 = 0)%nat) by lia.
  rewrite E in Hlen. simpl in Hlen. discriminate Hlen.
Qed.

Lemma upper_char_idempotent (c : ascii) : upper_char (upper_char c) = upper_char c.
Proof.
  destruct (is_lower c) eqn:Hl.
  - apply upper_char_other. unfold is_lower at 1.
    rewrite (upper_char_lower c Hl).
    unfold is_lower in Hl. apply andb_prop in Hl as [H1 H2].
    apply andb_false_iff. left. lia.
  - rewrite (upper_char_other c Hl). apply upper_char_other. exact Hl.
Qed.

Lemma toUpperCase_idempotent (s : string) :
  toUpperCase (toUpperCase s) = toUpperCase s.
Proof.
  unfold toUpperCase. induction s as [|c s IH]; [reflexivity|]. simpl.
  rewrite upper_char_idempotent, IH. reflexivity.
Qed.

Lemma base36_printable (c : ascii) :
  is_base36_upper c = true \/ is_base36_lower c = true ->
  33 <= char_code c < 128.
Proof.
  unfold is_base36_upper, is_base36_lower, is_digit, is_upper, is_lower.
  intros [H | H]; apply orb_true_iff in H as [H | H];
    apply andb_prop in H as [H1 H2]; lia.
Qed.

Lemma base36_upper_ascii (s : string) :
  string_forallb is_base36_upper s = true -> is_ascii s = true.
Proof.
  unfold is_ascii. induction s as [|c s IH]; [reflexivity|]. simpl.
  intros H. apply andb_prop in H as [Hc Hs]. rewrite (IH Hs), andb_true_r.
  pose proof (base36_printable c (or_introl Hc)). unfold is_ascii_char. lia.
Qed.

Lemma base36_lower_ascii (s : string) :
  string_forallb is_base36_lower s = true -> is_ascii s = true.
Proof.
  unfold is_ascii. induction s as [|c s IH]; [reflexivity|]. simpl.
  intros H. apply andb_prop in H as [Hc Hs]. rewrite (IH Hs), andb_true_r.
  pose proof (base36_printable c (or_intror Hc)). unfold is_ascii_char. lia.
Qed.

(** X12.  A room that was created can be joined by typing its code.  When
    the random string is a radix-36 fraction with at least one digit, the
    generated code is not empty and is its own upper-case form; entering
    it, as shown or in lower case, navigates to the very route a successful
    [handleCreateRoom] navigated to. *)
Theorem generated_code_joinable (upper_wide : string -> string)
    (random36 : string) :
  radix36_fraction random36 = true -> (2 < String.length random36)%nat ->
  let code := generateRoomCode random36 in
  code <> ""
  /\ toUpperCase code = code
  /\ handleJoinRoom upper_wide code = [Navigate ("/room/" ++ code)]
  /\ handleJoinRoom upper_wide (js_substring 2 8 random36)
     = [Navigate ("/room/" ++ code)]
  /\ forall u r st,
       error r = None ->
       last (h_trace (Dashboard.handleCreateRoom (Some u) random36 (Resolved r)) st)
         = Some (Ui (Navigate ("/room/" ++ code))).
Proof.
  intros Hshape Hlen code.
  assert (Hup : toUpperCase code = code).
  { subst code. unfold generateRoomCode. apply toUpperCase_idempotent. }
  assert (Hraw : string_forallb is_base36_lower (js_substring 2 8 random36) = true).
  { destruct random36 as [|c0 r']; [discriminate|].
    destruct c0 as [[] [] [] [] [] [] [] []]; simpl in Hshape; try discriminate.
    destruct r' as [|c1 d]; [reflexivity|].
    destruct c1 as [[] [] [] [] [] [] [] []]; simpl in Hshape; try discriminate.
    change (string_forallb is_base36_lower (String.substring 0 6 d) = true).
    apply substring_forallb. exact Hshape. }
  assert (Hchars : string_forallb is_base36_upper code = true).
  { subst code. unfold generateRoomCode. apply toUpperCase_base36. exact Hraw. }
  assert (Hne : code <> "").
  { intros E. pose proof (generateRoomCode_length_eq random36) as Hl.
    fold code in Hl. rewrite E in Hl.
    destruct (String.length random36 - 2)%nat as [|k] eqn:Ek;
      [lia | simpl in Hl; discriminate Hl]. }
  assert (Hrawne : js_substring 2 8 random36 <> "").
  { intros E. apply Hne. subst code. unfold generateRoomCode. rewrite E.
    reflexivity. }
  assert (Hblank : forall s, s <> "" ->
            string_forallb is_base36_upper s = true
            \/ string_forallb is_base36_lower s = true ->
            truthy_str (trim s) = true).
  { intros s Hs Hb. rewrite trim_truthy. destruct s as [|c s]; [congruence|].
    unfold blank. cbn [blank_from]. rewrite ws_step_printable; [reflexivity|].
    apply base36_printable.
    destruct Hb as [Hb | Hb]; simpl in Hb; apply andb_prop in Hb as [Hc _];
      [left | right]; exact Hc. }
  split; [exact Hne|]. split; [exact Hup|]. split; [|split].
  - unfold handleJoinRoom. rewrite (Hblank code Hne (or_introl Hchars)).
    rewrite (toUpperCaseText_ascii upper_wide code (base36_upper_ascii code Hchars)).
    rewrite Hup. reflexivity.
  - unfold handleJoinRoom. rewrite (Hblank _ Hrawne (or_intror Hraw)).
    rewrite (toUpperCaseText_ascii upper_wide _ (base36_lower_ascii _ Hraw)).
    reflexivity.
  - intros u r st Herr. fold code.
    unfold h_trace, Dashboard.handleCreateRoom, h_try_catch, mbind, H_bind.
    simpl. rewrite Herr. reflexivity.
Qed.

(** X13.  [handleCreateRoom] never throws and never changes the dashboard's
    state.  Without a user it does nothing.  Otherwise it inserts one row,
    with the generated code, empty content and the entered name or, when
    none was entered, "Room " followed by the code; it then shows "Room
    created!" and navigates to the new room, or, when the insert fails,
    shows the error toast and stays on the dashboard. *)
Theorem handleCreateRoom_outcomes (random36 : string)
    (reply : Awaited StoreReply) (st : Dashboard.DashState) :
  let code := generateRoomCode random36 in
  Dashboard.handleCreateRoom None random36 reply st = (Done tt, st, [])
  /\ forall u,
       let fields := Dashboard.create_fields code (Dashboard.roomName st) u in
       fields !! "code" = Some (JStr code)
       /\ fields !! "content" = Some (JStr "")
       /\ fields !! "name" =
            Some (JStr (if String.eqb (Dashboard.roomName st) ""
                        then "Room " ++ code else Dashboard.roomName st))
       /\ fields !! "updated_at" = None
       /\ Dashboard.handleCreateRoom (Some u) random36 reply st =
            (Done tt, st,
             StoreInsert fields ::
             match reply with
             | Resolved (mkReply _ None) =>
                 [Ui (Toast "Room created!"
                        ("Room " ++ code ++ " has been created successfully")
                        false);
                  Ui (Navigate ("/room/" ++ code))]
             | _ =>
                 [Ui (Toast "Error" "Failed to create room. Please try again."
                        true)]
             end).
Proof.
  cbv zeta. split; [reflexivity|]. intros u.
  assert (Hname : str_or (Dashboard.roomName st)
                    ("Room " ++ generateRoomCode random36)
                  = if String.eqb (Dashboard.roomName st) ""
                    then "Room " ++ generateRoomCode random36
                    else Dashboard.roomName st).
  { unfold str_or, truthy_str.
    destruct (String.eqb (Dashboard.roomName st) ""); reflexivity. }
  unfold Dashboard.create_fields. rewrite Hname.
  split; [destruct (user_email u); reflexivity|].
  split; [destruct (user_email u); reflexivity|].
  split; [destruct (user_email u); reflexivity|].
  split; [destruct (user_email u); reflexivity|].
  unfold Dashboard.handleCreateRoom, Dashboard.create_fields, h_try_catch,
    mbind, H_bind. simpl. rewrite Hname.
  destruct reply as [[d [e|]]|e]; reflexivity.
Qed.

(** X14.  [fetchUserRooms] never throws.  Without a user it does nothing,
    and the list keeps showing as loading.  With a user it asks once for
    the rooms that user created and always ends with the loading flag
    down: on success the list is the rows of the reply, or empty when the
    reply has none; on failure the list is left as it was and the error is
    only logged, with no toast. *)
Theorem fetchUserRooms_outcomes (reply : Awaited Dashboard.ListReply)
    (st : Dashboard.DashState) :
  Dashboard.fetchUserRooms None reply st = (Done tt, st, [])
  /\ forall u,
       Dashboard.fetchUserRooms (Some u) reply st =
         match reply with
         | Resolved (Dashboard.mkListReply rows None) =>
             (Done tt,
              Dashboard.mkDash (Dashboard.joinCode st) (Dashboard.roomName st)
                (default [] rows) false,
              [StoreSelectOwned (user_id u)])
         | _ =>
             (Done tt,
              Dashboard.mkDash (Dashboard.joinCode st) (Dashboard.roomName st)
                (Dashboard.userRooms st) false,
              [StoreSelectOwned (user_id u);
               Ui (ConsoleError "Error fetching rooms:")])
         end.
Proof.
  split; [reflexivity|]. intros u.
  unfold Dashboard.fetchUserRooms, h_try_catch_finally, h_try_catch,
    mbind, H_bind. simpl.
  destruct reply as [[rows [e|]]|e]; reflexivity.
Qed.

Lemma append_length (a b : string) :
  String.length (a ++ b) = (String.length a + String.length b)%nat.
Proof.
  induction a as [|c a IH]; [reflexivity|].
  change (String c a ++ b) with (String c (a ++ b)). simpl. rewrite IH.
  reflexivity.
Qed.

(** X15.  Joining does nothing exactly when the entry is blank: empty, or
    made only of the white space and line terminators of ECMAScript, ASCII
    or not.  That is exactly when the Join button is disabled.  Otherwise
    it navigates once, to the upper-cased entry, which is not trimmed: for
    an ASCII entry the path keeps every character, white space included. *)
Theorem handleJoinRoom_blank (upper_wide : string -> string)
    (st : Dashboard.DashState) :
  let entry := Dashboard.joinCode st in
  (handleJoinRoom upper_wide entry = [] <-> blank entry = true)
  /\ (Dashboard.joinDisabled st = true <-> handleJoinRoom upper_wide entry = [])
  /\ (blank entry = false ->
      handleJoinRoom upper_wide entry =
        [Navigate ("/room/" ++ toUpperCaseText upper_wide entry)])
  /\ (blank entry = false -> is_ascii entry = true ->
      exists path, handleJoinRoom upper_wide entry = [Navigate path]
        /\ path = "/room/" ++ toUpperCase entry
        /\ String.length path = (6 + String.length entry)%nat).
Proof.
  cbv zeta. unfold Dashboard.joinDisabled, handleJoinRoom.
  rewrite trim_truthy.
  destruct (blank (Dashboard.joinCode st)); simpl.
  - split; [split; reflexivity|]. split; [split; reflexivity|].
    split; discriminate.
  - split; [split; discriminate|]. split; [split; discriminate|].
    split; [reflexivity|].
    intros _ Hascii. eexists. split; [reflexivity|].
    rewrite (toUpperCaseText_ascii upper_wide _ Hascii).
    split; [reflexivity|].
    unfold toUpperCase. rewrite append_length, string_map_length. reflexivity.
Qed.

(** ** The helpers of lib/supabase.ts *)

Lemma val_or_nonempty (v : jsopt) (fallback : string) :
  fallback <> "" -> val_or v fallback <> "".
Proof.
  intros Hf. unfold val_or. destruct (truthy v) eqn:Hv; [|exact Hf].
  apply truthy_cases in Hv as (s & -> & Hs). exact Hs.
Qed.

(** X16.  [getUserEmail] never returns an empty name: it returns the
    stored email when that is a non-empty string and "Unknown" in every
    other case.  For a missing or empty user id it answers "Unknown"
    without asking the store; an error reply is logged; only a rejected
    request makes it throw. *)
Theorem getUserEmail_never_empty (userId : jsopt) (reply : Awaited StoreReply) :
  (forall name tr, getUserEmail userId reply tt = (Done name, tt, tr) ->
     name <> "")
  /\ (truthy userId = false ->
      getUserEmail userId reply tt = (Done "Unknown", tt, []))
  /\ (forall id r, userId = Some (JStr id) -> id <> "" -> reply = Resolved r ->
      getUserEmail userId reply tt =
        match error r with
        | Some _ =>
            (Done "Unknown", tt,
             [StoreSelectUserEmail id; Ui (ConsoleError "Failed to fetch email:")])
        | None =>
            (Done (match data r with
                   | Some d => val_or (d !! "email") "Unknown"
                   | None => "Unknown"
                   end), tt, [StoreSelectUserEmail id])
        end)
  /\ (forall e, truthy userId = true -> reply = Rejected e ->
      h_outcome (getUserEmail userId reply) tt = Thrown e).
Proof.
  assert (Hval : forall v, val_or v "Unknown" <> "").
  { intros v. apply val_or_nonempty. discriminate. }
  split; [|split; [|split]].
  - intros name tr. unfold getUserEmail, mbind, H_bind, mret, H_ret.
    destruct (truthy userId); simpl.
    + destruct reply as [r|e]; simpl; [|discriminate].
      destruct (error r); simpl.
      * intros [= <- _]. discriminate.
      * intros [= <- _]. apply Hval.
    + intros [= <- _]. discriminate.
  - intros Hf. unfold getUserEmail. rewrite Hf. reflexivity.
  - intros id r -> Hid ->. unfold getUserEmail.
    rewrite truthy_JStr by assumption.
    unfold mbind, H_bind, mret, H_ret. simpl.
    destruct (error r); [reflexivity|]. destruct (data r); reflexivity.
  - intros e Ht ->. unfold h_outcome, getUserEmail. rewrite Ht. reflexivity.
Qed.


(** ** The login form *)

Lemma handleSubmit_blocked (reply : Awaited StoreReply) (st : Login.LoginState) :
  (Login.loading st = true -> Login.handleSubmit reply st = (Done tt, st, []))
  /\ (Login.loading st = false ->
      Login.email st = "" \/ Login.password st = "" ->
      Login.handleSubmit reply st =
        (Done tt, st,
         [Ui (Toast "Missing fields" "Please fill in all fields" true)])).
Proof.
  unfold Login.handleSubmit, mbind, H_bind, h_gets. split.
  - intros ->. reflexivity.
  - intros -> Hmissing. simpl. unfold truthy_str.
    destruct Hmissing as [-> | ->]; simpl; [reflexivity|].
    rewrite orb_true_r. reflexivity.
Qed.

(** X18.  A submit while a request is pending does nothing, and a submit
    with the email or the password empty only shows "Missing fields": in
    both cases nothing is sent to the identity provider and the form's
    state is unchanged. *)
Theorem handleSubmit_guards (reply : Awaited StoreReply) (st : Login.LoginState) :
  (Login.loading st = true -> Login.handleSubmit reply st = (Done tt, st, []))
  /\ (Login.loading st = false ->
      Login.email st = "" \/ Login.password st = "" ->
      Login.handleSubmit reply st =
        (Done tt, st,
         [Ui (Toast "Missing fields" "Please fill in all fields" true)])).
Proof.
  unfold Login.handleSubmit, mbind, H_bind, h_gets. split.
  - intros Hbusy. rewrite Hbusy. reflexivity.
  - intros Hidle Hmissing. rewrite Hidle. simpl. unfold truthy_str.
    destruct Hmissing as [He | Hp].
    + rewrite He. reflexivity.
    + rewrite Hp. simpl. rewrite orb_true_r. reflexivity.
Qed.

(** The form after a submit that was sent: only the mode may have
    changed. *)
Lemma handleSubmit_sent (reply : Awaited StoreReply) (st : Login.LoginState) :
  Login.loading st = false -> Login.email st <> "" -> Login.password st <> "" ->
  Login.handleSubmit reply st =
    (Done tt,
     Login.mkLogin (Login.email st) (Login.password st)
       (match reply with
        | Resolved (mkReply _ None) => true
        | _ => Login.isLogin st
        end)
       false (Login.showPassword st),
     (if Login.isLogin st
      then AuthSignIn (Login.email st) (Login.password st)
      else AuthSignUp (Login.email st) (Login.password st)) ::
     match reply with
     | Resolved (mkReply _ (Some err)) =>
         [Ui (ConsoleError "Supabase Auth Error:");
          Ui (Toast (if Login.isLogin st then "Login failed"
                     else "Registration failed")
                (str_or (err_message err) "Something went wrong.") true)]
     | Resolved (mkReply _ None) =>
         if Login.isLogin st
         then [Ui (Toast "Welcome back!" "You have been logged in successfully"
                     false);
               Ui (Navigate "/dashboard")]
         else [Ui (Toast "Account created!"
                     "Please check your email to confirm your account before logging in (if required)."
                     false)]
     | Rejected _ =>
         [Ui (ConsoleError "Unexpected error:");
          Ui (Toast "Error" "Something went wrong. Please try again." true)]
     end).
Proof.
  intros Hl He Hp. destruct st as [em pw lg ld sp]. simpl in *. subst ld.
  unfold Login.handleSubmit, mbind, H_bind, h_gets. simpl.
  unfold truthy_str.
  destruct (String.eqb_spec em ""); [contradiction|].
  destruct (String.eqb_spec pw ""); [contradiction|]. simpl.
  unfold h_try_catch_finally, h_try_catch. simpl.
  destruct reply as [[d [err|]]|e]; destruct lg; reflexivity.
Qed.

(** X19.  The login form navigates to the dashboard exactly when a submit
    in login mode, with both fields filled and no request pending, is
    answered without an error; it never navigates anywhere else. *)
Theorem handleSubmit_navigates_iff (reply : Awaited StoreReply)
    (st : Login.LoginState) :
  (Ui (Navigate "/dashboard") ∈ h_trace (Login.handleSubmit reply) st <->
   Login.loading st = false /\ Login.email st <> "" /\ Login.password st <> ""
   /\ Login.isLogin st = true
   /\ exists r, reply = Resolved r /\ error r = None)
  /\ (forall path, Ui (Navigate path) ∈ h_trace (Login.handleSubmit reply) st ->
      path = "/dashboard").
Proof.
  assert (Hnot : forall (l : list AppEffect) path,
            Ui (Navigate path) ∈ l ->
            Forall (fun e => forall p, e <> Ui (Navigate p)) l -> False).
  { intros l path Hin Hall. rewrite Forall_forall in Hall.
    apply (Hall _ Hin path). reflexivity. }
  unfold h_trace.
  destruct (Login.loading st) eqn:Hl.
  { rewrite (proj1 (handleSubmit_blocked reply st) Hl). simpl. split.
    - split; [intros Hin; apply elem_of_nil in Hin; destruct Hin|].
      intros (H & _). discriminate.
    - intros path Hin. apply elem_of_nil in Hin. destruct Hin. }
  destruct (String.eqb_spec (Login.email st) "") as [He|He].
  { rewrite (proj2 (handleSubmit_blocked reply st) Hl (or_introl He)). simpl. split.
    - split; [|intros (_ & H & _); contradiction].
      intros Hin. exfalso. apply (Hnot _ _ Hin).
      repeat constructor; discriminate.
    - intros path Hin. exfalso. apply (Hnot _ _ Hin).
      repeat constructor; discriminate. }
  destruct (String.eqb_spec (Login.password st) "") as [Hp|Hp].
  { rewrite (proj2 (handleSubmit_blocked reply st) Hl (or_intror Hp)). simpl. split.
    - split; [|intros (_ & _ & H & _); contradiction].
      intros Hin. exfalso. apply (Hnot _ _ Hin).
      repeat constructor; discriminate.
    - intros path Hin. exfalso. apply (Hnot _ _ Hin).
      repeat constructor; discriminate. }
  rewrite (handleSubmit_sent reply st Hl He Hp). simpl.
  destruct reply as [[d [err|]]|e]; destruct (Login.isLogin st) eqn:Hlg; split;
    try (split;
         [ intros Hin; exfalso; apply (Hnot _ _ Hin);
           repeat constructor; discriminate
         | first [ intros (_ & _ & _ & _ & r & [= <-] & Herr); discriminate Herr
                 | intros (_ & _ & _ & _ & r & Hr & _); discriminate Hr
                 | intros (_ & _ & _ & H & _); discriminate H ] ]);
    try (intros path Hin; exfalso; apply (Hnot _ _ Hin);
         repeat constructor; discriminate).
  - split; [|intros _; repeat (try (left; reflexivity); right)].
    intros _. repeat split; try assumption.
    exists (mkReply d None). split; reflexivity.
  - intros path Hin.
    repeat (apply elem_of_cons in Hin as [Hin|Hin];
            [first [discriminate Hin | injection Hin as ->; reflexivity]|]).
    apply elem_of_nil in Hin. destruct Hin.
Qed.

(** X20.  A submit never throws and never changes the entered email, the
    entered password or the password's visibility, and it leaves the
    loading flag as it found it.  A submit that is sent makes exactly one
    request, sign-in in login mode and sign-up otherwise, with the entered
    credentials; the mode changes only after a sign-up answered without an
    error, which switches the form to login; and the description of the
    toast shown for an error reply is never empty. *)
Theorem handleSubmit_frame (reply : Awaited StoreReply) (st : Login.LoginState) :
  let st' := h_exec (Login.handleSubmit reply) st in
  h_outcome (Login.handleSubmit reply) st = Done tt
  /\ Login.email st' = Login.email st
  /\ Login.password st' = Login.password st
  /\ Login.showPassword st' = Login.showPassword st
  /\ Login.loading st' = Login.loading st
  /\ (Login.isLogin st' <> Login.isLogin st ->
      Login.isLogin st = false /\ Login.isLogin st' = true
      /\ exists r, reply = Resolved r /\ error r = None)
  /\ (Login.loading st = false -> Login.email st <> "" ->
      Login.password st <> "" ->
      exists rest,
        h_trace (Login.handleSubmit reply) st =
          (if Login.isLogin st
           then AuthSignIn (Login.email st) (Login.password st)
           else AuthSignUp (Login.email st) (Login.password st)) :: rest
        /\ (forall e p, (AuthSignIn e p ∉ rest) /\ (AuthSignUp e p ∉ rest))
        /\ (forall r err title description,
              reply = Resolved r -> error r = Some err ->
              Ui (Toast title description true) ∈ rest -> description <> "")).
Proof.
  cbv zeta. unfold h_exec, h_outcome, h_trace.
  destruct (Login.loading st) eqn:Hl.
  { rewrite (proj1 (handleSubmit_blocked reply st) Hl). simpl.
    repeat split; try assumption; try congruence; discriminate. }
  destruct (String.eqb_spec (Login.email st) "") as [He|He].
  { rewrite (proj2 (handleSubmit_blocked reply st) Hl (or_introl He)). simpl.
    repeat split; try assumption; try congruence. }
  destruct (String.eqb_spec (Login.password st) "") as [Hp|Hp].
  { rewrite (proj2 (handleSubmit_blocked reply st) Hl (or_intror Hp)). simpl.
    repeat split; try assumption; try congruence. }
  rewrite (handleSubmit_sent reply st Hl He Hp). simpl.
  do 5 (split; [reflexivity|]). split.
  - destruct reply as [[d [err|]]|e]; try congruence.
    destruct (Login.isLogin st); [congruence|]. intros _.
    repeat split. exists (mkReply d None). split; reflexivity.
  - intros _ _ _. eexists. split; [reflexivity|]. split.
    + intros e p.
      destruct reply as [[d [err|]]|e0]; destruct (Login.isLogin st); split;
        intros Hin;
        repeat (apply elem_of_cons in Hin as [Hin|Hin]; [discriminate Hin|]);
        apply elem_of_nil in Hin; exact Hin.
    + intros r err title description -> Herr Hin. destruct r as [d e0].
      simpl in Herr. subst e0.
      repeat (apply elem_of_cons in Hin as [Hin|Hin];
              [try discriminate Hin|]).
      * injection Hin as _ ->. unfold str_or.
        destruct (truthy_str (err_message err)) eqn:Hm; [|discriminate].
        intros E. rewrite E in Hm. discriminate Hm.
      * apply elem_of_nil in Hin. destruct Hin.
Qed.

(** ** The earlier editor *)

(** X21.  The earlier realtime callback has no recency guard: after any
    deliveries the content buffer and the room data are those of the event
    delivered last, whatever the timestamps and whoever the editor, and
    the watermark plays no part. *)
Theorem legacy_last_delivered_wins (es : list Row) (e : Row) (st : State) :
  let st' := Legacy.deliver (es ++ [e]) st in
  content st' = val_or (e !! "content") ""
  /\ roomData st' = Some e
  /\ lastAppliedAtRef st' = lastAppliedAtRef st.
Proof.
  cbv zeta. unfold Legacy.deliver. rewrite foldl_app. simpl.
  split; [reflexivity|]. split; [reflexivity|].
  generalize st. induction es as [|e' es IH]; intros st0; [reflexivity|].
  simpl. rewrite IH. reflexivity.
Qed.

(** * The further properties at concrete inputs *)

Lemma isNewer_strict_order_witness :
  isNewer Date_parse_iso (Some (JStr (jan "01"))) (Some (JStr (jan "02"))) = false
  /\ isNewer Date_parse_iso (Some (JStr (jan "03"))) (Some (JStr (jan "01"))) = true.
Proof.
  destruct (isNewer_strict_order Date_parse_iso) as (_ & Hasym & Htrans).
  split.
  - apply Hasym. reflexivity.
  - apply (Htrans _ (Some (JStr (jan "02")))); reflexivity.
Defined.

Lemma unparseable_watermark_blocks_updates_witness :
  let st := alice_editor "draft" JNull in
  let odd := room_row "ABC123" "odd" (JStr "bob@example.com") (JStr "soon") in
  let st' := run Date_parse_iso
               (OpRemote <$> [Some odd; Some (bob_event "later" "05"); None;
                              Some (bob_event "latest" "09")]) st in
  content st' = "odd" /\ lastAppliedAtRef st' = JStr "soon".
Proof.
  destruct (unparseable_watermark_blocks_updates Date_parse_iso) as (_ & Hfirst).
  apply (Hfirst [Some (bob_event "later" "05"); None;
                 Some (bob_event "latest" "09")]
           (alice_editor "draft" JNull)
           (room_row "ABC123" "odd" (JStr "bob@example.com") (JStr "soon"))
           "soon"); try reflexivity.
  discriminate.
Defined.

Lemma deliveries_keep_flags_witness :
  showsLoading
    (run Date_parse_iso
       (OpRemote <$> [Some (bob_event "early" "02"); Some (bob_event "next" "03")])
       (mkState None "" false true JNull (JStr "alice@example.com")))
  = true.
Proof.
  apply (deliveries_keep_flags Date_parse_iso
           [Some (bob_event "early" "02"); Some (bob_event "next" "03")]
           (mkState None "" false true JNull (JStr "alice@example.com"))).
  reflexivity.
Defined.

Lemma handleSave_total_witness :
  handleSave None (Some "ABC123") (jan "03") ok_reply (alice_editor "x" JNull)
    = (Done tt, alice_editor "x" JNull, [])
  /\ isSaving (exec (handleSave (Some alice) (Some "ABC123") (jan "03")
                       (Rejected (mkStoreError None "offline")))
                 (alice_editor "x" JNull)) = false.
Proof.
  split.
  - apply (handleSave_total None (Some "ABC123") (jan "03") ok_reply
             (alice_editor "x" JNull)).
    left. reflexivity.
  - destruct (handleSave_total (Some alice) (Some "ABC123") (jan "03")
                (Rejected (mkStoreError None "offline")) (alice_editor "x" JNull))
      as (_ & _ & _ & _ & _ & _ & Hsent).
    apply (Hsent alice "ABC123"); [reflexivity | reflexivity | discriminate].
Defined.

Lemma load_found_shows_room_witness :
  showsLoading
    (exec (loadRoom (Some alice) "ABC123" true
             (Resolved (mkReply (Some (bob_event "v1" "01")) None)))
       initial_state) = false.
Proof.
  apply (load_found_shows_room alice "ABC123"
           (mkReply (Some (bob_event "v1" "01")) None) (bob_event "v1" "01")
           initial_state).
  - reflexivity.
  - intros e [=].
Defined.

Lemma load_failure_redirects_witness :
  trace (loadRoom (Some alice) "ABC123" true
           (Resolved (mkReply (Some (bob_event "v1" "01"))
                        (Some (mkStoreError (Some "42501") "permission denied")))))
    initial_state
  = [StoreSelect "ABC123"; ConsoleError "Error loading room:";
     Toast "Error" "Failed to load room data." true; Navigate "/dashboard"].
Proof.
  unfold trace.
  rewrite (load_failure_redirects alice "ABC123"
             (Resolved (mkReply (Some (bob_event "v1" "01"))
                          (Some (mkStoreError (Some "42501") "permission denied"))))
             initial_state).
  - reflexivity.
  - eexists. split; [reflexivity | discriminate].
Defined.

Lemma load_guards_witness :
  roomEffect None (Some "ABC123") (found_reply (bob_event "v1" "01")) initial_state
    = (Done tt, initial_state, [])
  /\ lastAppliedAtRef
       (exec (loadRoom (Some alice) "ABC123" false
                (found_reply (bob_event "v1" "01"))) initial_state)
     = JStr (jan "01").
Proof.
  destruct load_guards as (_ & Heffect & _ & Hwm).
  split.
  - apply Heffect. left. reflexivity.
  - apply (Hwm alice "ABC123" (mkReply (Some (bob_event "v1" "01")) None)
             (bob_event "v1" "01") initial_state); reflexivity.
Defined.

Lemma channelName_injective_witness :
  channelName (Some "ABC123") <> channelName None.
Proof.
  apply (channelName_injective "ABC123" "XYZ789"); discriminate.
Defined.

Lemma handleDownload_names_file_witness :
  download_name (roomData (alice_editor "text" JNull)) (Some "ABC123")
    = "Room ABC123.txt"
  /\ download_name None (Some "ABC123") = "ABC123.txt".
Proof.
  split.
  - destruct (handleDownload_names_file "ABC123" (alice_editor "text" JNull))
      as (base & _ & Hname & Hroom & _).
    rewrite Hname.
    rewrite (Hroom (room_row "ABC123" "text" (JStr "bob@example.com") JNull)
               "Room ABC123"); [reflexivity | reflexivity | reflexivity |].
    discriminate.
  - destruct (handleDownload_names_file "ABC123"
                (mkState None "text" false false JNull JNull))
      as (base & _ & Hname & _ & Hnone & _).
    change (download_name None (Some "ABC123"))
      with (download_name (roomData (mkState None "text" false false JNull JNull))
              (Some "ABC123")).
    rewrite Hname, (Hnone eq_refl). reflexivity.
Defined.

Lemma generateRoomCode_length_witness : generateRoomCode "0" = "".
Proof.
  apply (generateRoomCode_length "0"). simpl. lia.
Defined.

Lemma generated_code_joinable_witness :
  handleJoinRoom sample_upper_wide "4fzyo8" = [Navigate "/room/4FZYO8"].
Proof.
  apply (generated_code_joinable sample_upper_wide "0.4fzyo82mvyr");
    [reflexivity | simpl; lia].
Defined.

Lemma handleJoinRoom_blank_witness :
  handleJoinRoom sample_upper_wide (" " ++ no_break_space) = []
  /\ handleJoinRoom sample_upper_wide (sharp_s ++ " a")
     = [Navigate "/room/SS A"]
  /\ exists path, handleJoinRoom sample_upper_wide " ab" = [Navigate path]
       /\ path = "/room/ AB"
       /\ String.length path = 9%nat.
Proof.
  split; [|split].
  - apply (handleJoinRoom_blank sample_upper_wide
             (Dashboard.mkDash (" " ++ no_break_space) "" [] false)).
    reflexivity.
  - apply (handleJoinRoom_blank sample_upper_wide
             (Dashboard.mkDash (sharp_s ++ " a") "" [] false)).
    reflexivity.
  - apply (handleJoinRoom_blank sample_upper_wide
             (Dashboard.mkDash " ab" "" [] false)); reflexivity.
Defined.

Lemma getUserEmail_never_empty_witness :
  getUserEmail (Some JNull) ok_reply tt = (Done "Unknown", tt, [])
  /\ getUserEmail (Some (JStr "u-bob"))
       (Resolved (mkReply (Some {[ "email" := JStr "" ]}) None)) tt
     = (Done "Unknown", tt, [StoreSelectUserEmail "u-bob"])
  /\ h_outcome (getUserEmail (Some (JStr "u-bob"))
                  (Rejected (mkStoreError None "offline"))) tt
     = Thrown (mkStoreError None "offline").
Proof.
  split; [|split].
  - apply (getUserEmail_never_empty (Some JNull) ok_reply). reflexivity.
  - destruct (getUserEmail_never_empty (Some (JStr "u-bob"))
                (Resolved (mkReply (Some {[ "email" := JStr "" ]}) None)))
      as (_ & _ & Hasked & _).
    rewrite (Hasked "u-bob" (mkReply (Some {[ "email" := JStr "" ]}) None));
      [reflexivity | reflexivity | discriminate | reflexivity].
  - apply (getUserEmail_never_empty (Some (JStr "u-bob"))
             (Rejected (mkStoreError None "offline"))); reflexivity.
Defined.


Lemma handleSubmit_guards_witness :
  Login.handleSubmit ok_reply (Login.mkLogin "a@b.c" "pw" true true false)
    = (Done tt, Login.mkLogin "a@b.c" "pw" true true false, [])
  /\ Login.handleSubmit ok_reply (Login.mkLogin "a@b.c" "" true false false)
     = (Done tt, Login.mkLogin "a@b.c" "" true false false,
        [Ui (Toast "Missing fields" "Please fill in all fields" true)]).
Proof.
  split.
  - apply (handleSubmit_guards ok_reply
             (Login.mkLogin "a@b.c" "pw" true true false)). reflexivity.
  - apply (handleSubmit_guards ok_reply
             (Login.mkLogin "a@b.c" "" true false false));
      [reflexivity | right; reflexivity].
Defined.

Lemma handleSubmit_navigates_iff_witness :
  Ui (Navigate "/dashboard") ∈
    h_trace (Login.handleSubmit ok_reply)
      (Login.mkLogin "a@b.c" "pw" true false false).
Proof.
  apply (handleSubmit_navigates_iff ok_reply
           (Login.mkLogin "a@b.c" "pw" true false false)).
  repeat split; try discriminate.
  exists (mkReply None None). split; reflexivity.
Defined.

Lemma handleSubmit_frame_witness :
  exists rest,
    h_trace (Login.handleSubmit ok_reply)
      (Login.mkLogin "a@b.c" "pw" false false false)
    = AuthSignUp "a@b.c" "pw" :: rest
    /\ Login.isLogin
         (h_exec (Login.handleSubmit ok_reply)
            (Login.mkLogin "a@b.c" "pw" false false false)) = true.
Proof.
  destruct (handleSubmit_frame ok_reply
              (Login.mkLogin "a@b.c" "pw" false false false))
    as (_ & _ & _ & _ & _ & Hmode & Hsent).
  destruct Hsent as (rest & Htrace & _); [reflexivity | discriminate | discriminate|].
  exists rest. split; [exact Htrace|].
  apply Hmode. discriminate.
Defined.

(** X22.  The echo of one's own save is recognised as a self-update
    exactly when the account has a non-empty email: [handleSave] writes
    [user.email] as [editor_email], the callback compares it with the
    stored [user?.email ?? null], and an account without an address
    matches nothing. *)
Theorem own_echo_is_self (u : User) (c nowIso : string) (echo : Row)
    (st : State) :
  save_fields c u nowIso ⊆ echo ->
  let st' := exec (syncMyEmail (Some u)) st in
  isSelfUpdate (myEmailRef st') echo = true
  <-> exists e, user_email u = Some e /\ e <> "".
Proof.
  intros Hsub. cbv zeta.
  change (myEmailRef (exec (syncMyEmail (Some u)) st)) with (email_of (Some u)).
  unfold isSelfUpdate, strict_eq, email_of.
  destruct (user_email u) as [e|] eqn:He.
  - assert (Hecho : echo !! "editor_email" = Some (JStr e)).
    { eapply lookup_weaken; [|exact Hsub].
      unfold save_fields. rewrite He. reflexivity. }
    rewrite Hecho. simpl. unfold truthy_str.
    destruct (String.eqb_spec e "") as [->|Hne]; simpl.
    + split; [discriminate|]. intros (e' & [= <-] & Hne). contradiction.
    + split; [|intros _; apply bool_decide_eq_true; reflexivity].
      intros _. exists e. auto.
  - simpl. split; [discriminate|]. intros (e' & [=] & _).
Qed.

Lemma own_echo_is_self_witness :
  isSelfUpdate
    (myEmailRef (exec (syncMyEmail (Some alice)) initial_state))
    (room_row "ABC123" "hello" (JStr "alice@example.com") (JStr (jan "05")))
  = true.
Proof.
  apply (own_echo_is_self alice "hello" (jan "05")
           (room_row "ABC123" "hello" (JStr "alice@example.com") (JStr (jan "05")))
           initial_state).
  - apply (bool_decide_unpack _). vm_compute. exact I.
  - exists "alice@example.com". split; [reflexivity | discriminate].
Defined.

Lemma deliveries_never_regress_witness :
  lastAppliedAtRef
    (run Date_parse_iso
       (OpRemote <$> [Some (bob_event "v3" "03"); Some (bob_event "v2" "02");
                      None; Some (bob_event "v4" "04");
                      Some (bob_event "v3" "03")])
       (alice_editor "v1" (JStr (jan "01"))))
  = JStr (jan "04")
  /\ exists s' t',
       lastAppliedAtRef
         (run Date_parse_iso (OpRemote <$> [Some (bob_event "v0" "01")])
            (alice_editor "v2" (JStr (jan "02")))) = JStr s'
       /\ s' <> "" /\ Date_parse_iso s' = Some t' /\ 1704153600000 <= t'.
Proof.
  split; [reflexivity|].
  destruct (deliveries_never_regress Date_parse_iso) as (_ & Htime & _).
  apply (Htime [Some (bob_event "v0" "01")] (alice_editor "v2" (JStr (jan "02")))
           (jan "02") 1704153600000); [reflexivity | discriminate | reflexivity].
Defined.
